(** * The scaffold Layout component: header, scrollable viewport, footer

    A shallow embedding of [layout/layout.go], [layout/layout_utils.go] and
    the demo application of [main.go].
    The [*Layout] receiver that the Go methods mutate in place is passed
    explicitly: every method is a function [Layout -> Layout].  Go [int]
    values are modelled in [Z]; the one subtraction chain that can leave the
    [int] range is wrapped explicitly ([Go.sub]).  Go strings are byte
    strings, modelled by [string]. *)

From Stdlib Require Import ZArith Lia List String Ascii Bool DecimalString.
Import ListNotations.

Local Open Scope string_scope.
Local Open Scope Z_scope.

(** ** Go primitives used by the package *)
Module Go.

(** The line-break byte ["\n"] and the carriage return ["\r"]. *)
Definition LF : ascii := "010"%char.
Definition CR : ascii := "013"%char.

(** [strings.Count(s, "\n")]: the separator is one byte long, so the
    non-overlapping occurrences are the bytes equal to it. *)
Fixpoint Count (s : string) : Z :=
  match s with
  | EmptyString => 0
  | String c s' => (if Ascii.eqb c LF then 1 else 0) + Count s'
  end.

(** A [strings.Builder] that receives [WriteString("\n")] once per
    iteration of [for i := 0; i < n; i++]. *)
Fixpoint writeLF (iterations : nat) (builder : string) : string :=
  match iterations with
  | O => builder
  | S k => writeLF k (builder ++ String LF EmptyString)
  end.

(** Two's complement wrap-around of a 64-bit [int]. *)
Definition wrap (z : Z) : Z := (z + 2 ^ 63) mod 2 ^ 64 - 2 ^ 63.


(** [a - b] on [int]. *)
Definition sub (a b : Z) : Z := wrap (a - b).

(** [a / b] on [int] truncates toward zero. *)
Definition div (a b : Z) : Z := Z.quot a b.

End Go.

(** ** Messages and commands of the event loop (package [tea]) *)
Module tea.

Inductive Msg : Type :=
| WindowSizeMsg (Width Height : Z)
| KeyMsg (key : string)
| OtherMsg (tag : string).

(** A follow-up command: [nil] or [tea.Quit]. *)
Inductive Cmd : Type :=
| NoCmd
| Quit.

End tea.

(** ** The Viewport collaborator *)
Module Viewport.

(** Modelled from the spec: the Viewport is the scrollable text buffer of
    the imported package [viewport]; its source is not part of this
    repository.  It owns the buffer ([lines]), its width and height and a
    vertical scroll offset ([YOffset]), the quantity every scroll command
    and boundary query works on.  [YPosition], the field that
    [layout_utils.go] reads and writes, is a field of its own in that
    package: the row at which the viewport is placed in the terminal
    window.  No scroll command touches it. *)
Record Model : Type := mkModel {
  Width : Z;
  Height : Z;
  YOffset : Z;
  YPosition : Z;
  lines : list string
}.

(** The Go zero value, held by a [Layout] until the first resize. *)
Definition zero : Model := mkModel 0 0 0 0 [].

(** Modelled from the spec: a Viewport constructed at a given size has an
    empty buffer and is scrolled to the top. *)
Definition New (width height : Z) : Model := mkModel width height 0 0 [].

Definition setWidth (w : Z) (m : Model) : Model :=
  mkModel w (Height m) (YOffset m) (YPosition m) (lines m).
Definition setHeight (h : Z) (m : Model) : Model :=
  mkModel (Width m) h (YOffset m) (YPosition m) (lines m).
Definition setYOffsetField (y : Z) (m : Model) : Model :=
  mkModel (Width m) (Height m) y (YPosition m) (lines m).
Definition setYPosition (y : Z) (m : Model) : Model :=
  mkModel (Width m) (Height m) (YOffset m) y (lines m).
Definition setLines (ls : list string) (m : Model) : Model :=
  mkModel (Width m) (Height m) (YOffset m) (YPosition m) ls.

(** Line endings ["\r\n"] are normalised to ["\n"]. *)
Fixpoint normalize (s : string) : string :=
  match s with
  | EmptyString => EmptyString
  | String c s' =>
      match s' with
      | String c' _ =>
          if (Ascii.eqb c Go.CR && Ascii.eqb c' Go.LF)%bool
          then normalize s'
          else String c (normalize s')
      | EmptyString => String c EmptyString
      end
  end.

(** The buffer is the content split at every line break. *)
Fixpoint split (s : string) : list string :=
  match s with
  | EmptyString => [EmptyString]
  | String c s' =>
      if Ascii.eqb c Go.LF then EmptyString :: split s'
      else match split s' with
           | first :: rest => String c first :: rest
           | [] => [String c EmptyString]
           end
  end.

Definition len (m : Model) : Z := Z.of_nat (List.length (lines m)).

Definition clamp (v low high : Z) : Z :=
  if high <? low then Z.min low (Z.max high v)
  else Z.min high (Z.max low v).

(** Modelled from the spec: the maximum valid offset for the current
    content length and height. *)
Definition maxYOffset (m : Model) : Z := Z.max 0 (len m - Height m).

(** Modelled from the spec: "at top" is offset 0, "at bottom" is the
    maximum offset. *)
Definition AtTop (m : Model) : bool := YOffset m <=? 0.
Definition AtBottom (m : Model) : bool := maxYOffset m <=? YOffset m.

(** Modelled from the spec: offsets are silently clamped to the valid
    range. *)
Definition SetYOffset (n : Z) (m : Model) : Model :=
  setYOffsetField (clamp n 0 (maxYOffset m)) m.

(** Modelled from the spec: jump to the minimum / maximum valid offset. *)
Definition GotoTop (m : Model) : Model :=
  if AtTop m then m else SetYOffset 0 m.
Definition GotoBottom (m : Model) : Model :=
  SetYOffset (maxYOffset m) m.

(** Modelled from the spec: scroll by [n] lines, clamping at the
    boundary. *)
Definition LineDown (n : Z) (m : Model) : Model :=
  if (AtBottom m || (n =? 0) || (len m =? 0))%bool then m
  else SetYOffset (YOffset m + n) m.
Definition LineUp (n : Z) (m : Model) : Model :=
  if (AtTop m || (n =? 0) || (len m =? 0))%bool then m
  else SetYOffset (YOffset m - n) m.

(** Modelled from the spec: replacing the buffer keeps the offset unless
    it now lies past the last line. *)
Definition SetContent (s : string) (m : Model) : Model :=
  let m' := setLines (split (normalize s)) m in
  if len m' - 1 <? YOffset m' then GotoBottom m' else m'.

(** The scroll commands a message can be bound to. *)
Inductive Nav : Type :=
| NavPageDown
| NavPageUp
| NavHalfPageDown
| NavHalfPageUp
| NavLineDown (n : Z)
| NavLineUp (n : Z).

Definition navigate (n : Nav) (m : Model) : Model :=
  match n with
  | NavPageDown => if AtBottom m then m else LineDown (Height m) m
  | NavPageUp => if AtTop m then m else LineUp (Height m) m
  | NavHalfPageDown => if AtBottom m then m else LineDown (Go.div (Height m) 2) m
  | NavHalfPageUp => if AtTop m then m else LineUp (Go.div (Height m) 2) m
  | NavLineDown n => LineDown n m
  | NavLineUp n => LineUp n m
  end.

(** Modelled from the spec: the Viewport reacts to the messages bound to a
    scroll command and ignores every other message, resize events among
    them.  The binding table is a parameter. *)
Definition Update (Bindings : tea.Msg -> option Nav) (msg : tea.Msg)
  (m : Model) : Model * tea.Cmd :=
  match msg with
  | tea.WindowSizeMsg _ _ => (m, tea.NoCmd)
  | _ =>
      match Bindings msg with
      | Some n => (navigate n m, tea.NoCmd)
      | None => (m, tea.NoCmd)
      end
  end.

End Viewport.

(** ** The rendering collaborator (package [lipgloss]) and the Viewport's
    renderer and key bindings, as an interface *)
Module lipgloss.

Inductive Position : Type := Left | Center.

Class Renderer : Type := {
  Style : Type;
  NewStyle : Style;
  Bold : bool -> Style -> Style;
  Foreground : string -> Style -> Style;
  Background : string -> Style -> Style;
  Width : Z -> Style -> Style;
  Align : Position -> Style -> Style;
  Render : Style -> string -> string;
  JoinVertical : Position -> list string -> string;
  ViewportView : Viewport.Model -> string;
  ViewportBindings : tea.Msg -> option Viewport.Nav
}.

End lipgloss.


(** ** Package [layout] *)
Module layout.

Section WithRenderer.

Context {R : lipgloss.Renderer}.

Inductive VerticalAlignment : Type :=
| AlignTop
| AlignCenter
| AlignBottom.

Record Layout : Type := mkLayout {
  header : string;
  footer : string;
  headerHeight : Z;
  footerHeight : Z;
  viewport : Viewport.Model;
  windowWidth : Z;
  windowHeight : Z;
  headerStyle : lipgloss.Style;
  footerStyle : lipgloss.Style;
  pendingContent : string;
  verticalAlign : VerticalAlignment;
  viewportContent : string
}.

(** Field assignments [l.f = v]. *)
Definition set_header (v : string) (l : Layout) : Layout :=
  mkLayout v (footer l) (headerHeight l) (footerHeight l) (viewport l)
    (windowWidth l) (windowHeight l) (headerStyle l) (footerStyle l)
    (pendingContent l) (verticalAlign l) (viewportContent l).
Definition set_footer (v : string) (l : Layout) : Layout :=
  mkLayout (header l) v (headerHeight l) (footerHeight l) (viewport l)
    (windowWidth l) (windowHeight l) (headerStyle l) (footerStyle l)
    (pendingContent l) (verticalAlign l) (viewportContent l).
Definition set_headerHeight (v : Z) (l : Layout) : Layout :=
  mkLayout (header l) (footer l) v (footerHeight l) (viewport l)
    (windowWidth l) (windowHeight l) (headerStyle l) (footerStyle l)
    (pendingContent l) (verticalAlign l) (viewportContent l).
Definition set_footerHeight (v : Z) (l : Layout) : Layout :=
  mkLayout (header l) (footer l) (headerHeight l) v (viewport l)
    (windowWidth l) (windowHeight l) (headerStyle l) (footerStyle l)
    (pendingContent l) (verticalAlign l) (viewportContent l).
Definition set_viewport (v : Viewport.Model) (l : Layout) : Layout :=
  mkLayout (header l) (footer l) (headerHeight l) (footerHeight l) v
    (windowWidth l) (windowHeight l) (headerStyle l) (footerStyle l)
    (pendingContent l) (verticalAlign l) (viewportContent l).
Definition set_windowWidth (v : Z) (l : Layout) : Layout :=
  mkLayout (header l) (footer l) (headerHeight l) (footerHeight l) (viewport l)
    v (windowHeight l) (headerStyle l) (footerStyle l)
    (pendingContent l) (verticalAlign l) (viewportContent l).
Definition set_windowHeight (v : Z) (l : Layout) : Layout :=
  mkLayout (header l) (footer l) (headerHeight l) (footerHeight l) (viewport l)
    (windowWidth l) v (headerStyle l) (footerStyle l)
    (pendingContent l) (verticalAlign l) (viewportContent l).
Definition set_headerStyle (v : lipgloss.Style) (l : Layout) : Layout :=
  mkLayout (header l) (footer l) (headerHeight l) (footerHeight l) (viewport l)
    (windowWidth l) (windowHeight l) v (footerStyle l)
    (pendingContent l) (verticalAlign l) (viewportContent l).
Definition set_footerStyle (v : lipgloss.Style) (l : Layout) : Layout :=
  mkLayout (header l) (footer l) (headerHeight l) (footerHeight l) (viewport l)
    (windowWidth l) (windowHeight l) (headerStyle l) v
    (pendingContent l) (verticalAlign l) (viewportContent l).
Definition set_pendingContent (v : string) (l : Layout) : Layout :=
  mkLayout (header l) (footer l) (headerHeight l) (footerHeight l) (viewport l)
    (windowWidth l) (windowHeight l) (headerStyle l) (footerStyle l)
    v (verticalAlign l) (viewportContent l).
Definition set_verticalAlign (v : VerticalAlignment) (l : Layout) : Layout :=
  mkLayout (header l) (footer l) (headerHeight l) (footerHeight l) (viewport l)
    (windowWidth l) (windowHeight l) (headerStyle l) (footerStyle l)
    (pendingContent l) v (viewportContent l).
Definition set_viewportContent (v : string) (l : Layout) : Layout :=
  mkLayout (header l) (footer l) (headerHeight l) (footerHeight l) (viewport l)
    (windowWidth l) (windowHeight l) (headerStyle l) (footerStyle l)
    (pendingContent l) (verticalAlign l) v.

(** [New]: the fields not listed in the composite literal hold their zero
    value. *)
Definition New : Layout :=
  let headerStyle :=
    lipgloss.Align lipgloss.Center
      (lipgloss.Width 100
        (lipgloss.Background "#0000FF"
          (lipgloss.Foreground "#FFFFFF"
            (lipgloss.Bold true lipgloss.NewStyle)))) in
  let footerStyle :=
    lipgloss.Align lipgloss.Center
      (lipgloss.Width 100
        (lipgloss.Background "#333333"
          (lipgloss.Foreground "#FFFFFF"
            (lipgloss.Bold true lipgloss.NewStyle)))) in
  mkLayout "Header" "Footer" 1 1 Viewport.zero 0 0 headerStyle footerStyle
    "" AlignTop "".

Definition SetHeader (header : string) (l : Layout) : Layout :=
  set_header header l.

Definition SetHeaderHeight (height : Z) (l : Layout) : Layout :=
  set_headerHeight height l.

Definition SetHeaderStyle (style : lipgloss.Style) (l : Layout) : Layout :=
  set_headerStyle style l.

Definition SetFooter (footer : string) (l : Layout) : Layout :=
  set_footer footer l.

Definition SetFooterHeight (height : Z) (l : Layout) : Layout :=
  set_footerHeight height l.

Definition SetFooterStyle (style : lipgloss.Style) (l : Layout) : Layout :=
  set_footerStyle style l.

(** [applyAlignment]: the content handed to the Viewport is always built
    from [viewportContent], the raw content. *)
Definition applyAlignment (l : Layout) : Layout :=
  if Viewport.Width (viewport l) =? 0 then l
  else
    let lines := Go.Count (viewportContent l) + 1 in
    if lines <? Viewport.Height (viewport l) then
      let paddingSize := Viewport.Height (viewport l) - lines in
      match verticalAlign l with
      | AlignTop =>
          set_viewport (Viewport.SetContent (viewportContent l) (viewport l)) l
      | AlignCenter =>
          let topPadding := Go.div paddingSize 2 in
          let paddedContent := Go.writeLF (Z.to_nat topPadding) "" in
          let paddedContent := paddedContent ++ viewportContent l in
          set_viewport (Viewport.SetContent paddedContent (viewport l)) l
      | AlignBottom =>
          let paddedContent := Go.writeLF (Z.to_nat paddingSize) "" in
          let paddedContent := paddedContent ++ viewportContent l in
          set_viewport (Viewport.SetContent paddedContent (viewport l)) l
      end
    else
      set_viewport (Viewport.SetContent (viewportContent l) (viewport l)) l.

Definition SetContent (content : string) (l : Layout) : Layout :=
  let l := set_viewportContent content l in
  if Viewport.Width (viewport l) =? 0 then set_pendingContent content l
  else applyAlignment l.

Definition SetVerticalAlignment (alignment : VerticalAlignment) (l : Layout)
  : Layout :=
  let l := set_verticalAlign alignment l in
  if (negb (viewportContent l =? "")%string
      && (0 <? Viewport.Width (viewport l)))%bool
  then applyAlignment l
  else l.

(** [Update]: returns the updated layout and the follow-up command. *)
Definition Update (msg : tea.Msg) (l : Layout) : Layout * tea.Cmd :=
  match msg with
  | tea.WindowSizeMsg Width Height =>
      let l := set_windowWidth Width l in
      let l := set_windowHeight Height l in
      let l := set_headerStyle (lipgloss.Width (windowWidth l) (headerStyle l)) l in
      let l := set_footerStyle (lipgloss.Width (windowWidth l) (footerStyle l)) l in
      let viewportHeight :=
        Go.sub (Go.sub (windowHeight l) (headerHeight l)) (footerHeight l) in
      let l :=
        if Viewport.Width (viewport l) =? 0 then
          let l := set_viewport (Viewport.New (windowWidth l) viewportHeight) l in
          if negb (pendingContent l =? "")%string then
            let l := set_viewportContent (pendingContent l) l in
            let l := set_pendingContent "" l in
            applyAlignment l
          else l
        else
          let l := set_viewport (Viewport.setWidth (windowWidth l) (viewport l)) l in
          let l := set_viewport (Viewport.setHeight viewportHeight (viewport l)) l in
          applyAlignment l in
      let (v, cmd) := Viewport.Update lipgloss.ViewportBindings msg (viewport l) in
      (set_viewport v l, cmd)
  | tea.KeyMsg key =>
      if ((key =? "ctrl+c")%string || (key =? "q")%string)%bool
      then (l, tea.Quit)
      else
        let (v, cmd) := Viewport.Update lipgloss.ViewportBindings msg (viewport l) in
        (set_viewport v l, cmd)
  | tea.OtherMsg _ =>
      let (v, cmd) := Viewport.Update lipgloss.ViewportBindings msg (viewport l) in
      (set_viewport v l, cmd)
  end.

Definition View (l : Layout) : string :=
  if windowHeight l =? 0 then "Initializing..."
  else
    let header := lipgloss.Render (headerStyle l) (header l) in
    let viewportContent := lipgloss.ViewportView (viewport l) in
    let footer := lipgloss.Render (footerStyle l) (footer l) in
    lipgloss.JoinVertical lipgloss.Left [header; viewportContent; footer].

(** *** [layout_utils.go] *)

Definition GetViewportHeight (l : Layout) : Z := Viewport.Height (viewport l).

Definition GetViewportWidth (l : Layout) : Z := Viewport.Width (viewport l).

Definition SetViewportYPosition (y : Z) (l : Layout) : Layout :=
  set_viewport (Viewport.setYPosition y (viewport l)) l.

Definition GetViewportYPosition (l : Layout) : Z :=
  Viewport.YPosition (viewport l).

Definition ViewportAtTop (l : Layout) : bool := Viewport.AtTop (viewport l).

Definition ViewportAtBottom (l : Layout) : bool :=
  Viewport.AtBottom (viewport l).

Definition LineDown (l : Layout) : Layout :=
  set_viewport (Viewport.LineDown 1 (viewport l)) l.

Definition LineUp (l : Layout) : Layout :=
  set_viewport (Viewport.LineUp 1 (viewport l)) l.

Definition HalfPageDown (l : Layout) : Layout :=
  let halfPageHeight := Go.div (Viewport.Height (viewport l)) 2 in
  set_viewport (Viewport.LineDown halfPageHeight (viewport l)) l.

Definition HalfPageUp (l : Layout) : Layout :=
  let halfPageHeight := Go.div (Viewport.Height (viewport l)) 2 in
  set_viewport (Viewport.LineUp halfPageHeight (viewport l)) l.

Definition PageDown (l : Layout) : Layout :=
  set_viewport (Viewport.LineDown (Viewport.Height (viewport l)) (viewport l)) l.

Definition PageUp (l : Layout) : Layout :=
  set_viewport (Viewport.LineUp (Viewport.Height (viewport l)) (viewport l)) l.

Definition ScrollToTop (l : Layout) : Layout :=
  set_viewport (Viewport.GotoTop (viewport l)) l.

Definition ScrollToBottom (l : Layout) : Layout :=
  set_viewport (Viewport.GotoBottom (viewport l)) l.

(** *** The Layout as a state machine

    Every exported entry point of the package, as one operation on the
    state.  The only way another package can change a [Layout] (its fields
    are unexported) is a sequence of these, starting from [New]. *)
Inductive Op : Type :=
| OpSetHeader (header : string)
| OpSetHeaderHeight (height : Z)
| OpSetHeaderStyle (style : lipgloss.Style)
| OpSetFooter (footer : string)
| OpSetFooterHeight (height : Z)
| OpSetFooterStyle (style : lipgloss.Style)
| OpSetContent (content : string)
| OpSetVerticalAlignment (alignment : VerticalAlignment)
| OpUpdate (msg : tea.Msg)
| OpSetViewportYPosition (y : Z)
| OpLineDown
| OpLineUp
| OpHalfPageDown
| OpHalfPageUp
| OpPageDown
| OpPageUp
| OpScrollToTop
| OpScrollToBottom.

Definition exec (o : Op) (l : Layout) : Layout :=
  match o with
  | OpSetHeader s => SetHeader s l
  | OpSetHeaderHeight h => SetHeaderHeight h l
  | OpSetHeaderStyle st => SetHeaderStyle st l
  | OpSetFooter s => SetFooter s l
  | OpSetFooterHeight h => SetFooterHeight h l
  | OpSetFooterStyle st => SetFooterStyle st l
  | OpSetContent c => SetContent c l
  | OpSetVerticalAlignment a => SetVerticalAlignment a l
  | OpUpdate msg => fst (Update msg l)
  | OpSetViewportYPosition y => SetViewportYPosition y l
  | OpLineDown => LineDown l
  | OpLineUp => LineUp l
  | OpHalfPageDown => HalfPageDown l
  | OpHalfPageUp => HalfPageUp l
  | OpPageDown => PageDown l
  | OpPageUp => PageUp l
  | OpScrollToTop => ScrollToTop l
  | OpScrollToBottom => ScrollToBottom l
  end.

Definition run (ops : list Op) (l : Layout) : Layout :=
  fold_left (fun l o => exec o l) ops l.

Definition isResize (o : Op) : bool :=
  match o with
  | OpUpdate (tea.WindowSizeMsg _ _) => true
  | _ => false
  end.

(** A resize event that reports a terminal of a width other than 0. *)
Definition resizeOk (o : Op) : Prop :=
  match o with
  | OpUpdate (tea.WindowSizeMsg Width _) => Width <> 0
  | _ => True
  end.


(** The operations that only forward a scroll command to the Viewport. *)
Definition scrolls (o : Op) : bool :=
  match o with
  | OpUpdate (tea.KeyMsg _) | OpUpdate (tea.OtherMsg _)
  | OpLineDown | OpLineUp | OpHalfPageDown | OpHalfPageUp
  | OpPageDown | OpPageUp | OpScrollToTop | OpScrollToBottom => true
  | _ => false
  end.


(** [Sized]: the Viewport has a positive width. *)
Definition Sized (l : Layout) : Prop := 0 < Viewport.Width (viewport l).

End WithRenderer.

End layout.

(** ** The specification's vocabulary *)
Module Spec.

(** The number of line-break characters of the content, plus 1. *)
Definition lineCount (C : string) : Z :=
  Z.of_nat (count_occ ascii_dec (list_ascii_of_string C) Go.LF) + 1.

(** [n] blank lines in front of a content: [n] line-break characters. *)
Definition blankLines (n : Z) : string :=
  string_of_list_ascii (repeat Go.LF (Z.to_nat n)).

(** The alignment function of the three inputs: mode, height, raw content.
    [/] is the floor division of [Z]. *)
Definition aligned (mode : layout.VerticalAlignment) (H : Z) (C : string)
  : string :=
  if lineCount C <? H then
    match mode with
    | layout.AlignTop => C
    | layout.AlignCenter => blankLines ((H - lineCount C) / 2) ++ C
    | layout.AlignBottom => blankLines (H - lineCount C) ++ C
    end
  else C.

(** The buffer a Viewport holds after a content has been set. *)
Definition buffer (content : string) : list string :=
  Viewport.split (Viewport.normalize content).

(** The Viewport shows the alignment of the current raw content, mode and
    height. *)
Definition Aligned {R : lipgloss.Renderer} (l : layout.Layout) : Prop :=
  Viewport.lines (layout.viewport l) =
  buffer (aligned (layout.verticalAlign l)
            (Viewport.Height (layout.viewport l))
            (layout.viewportContent l)).

(** While the Layout is unsized the pending content mirrors the raw content;
    once it is sized, a non-empty raw content is shown aligned. *)
Definition contentInv {R : lipgloss.Renderer} (l : layout.Layout) : Prop :=
  (Viewport.Width (layout.viewport l) = 0 ->
   layout.pendingContent l = layout.viewportContent l) /\
  (layout.Sized l -> layout.viewportContent l <> "" -> Aligned l).

End Spec.

(** ** A plain renderer, to run the layout on concrete inputs

    Styles carry their width only, rendering leaves the text as it is, blocks
    are stacked with a line break between them, and the usual keys are bound
    to the scroll commands. *)
Module Plain.

Definition keys (msg : tea.Msg) : option Viewport.Nav :=
  match msg with
  | tea.KeyMsg k =>
      if (k =? "j")%string then Some (Viewport.NavLineDown 1)
      else if (k =? "k")%string then Some (Viewport.NavLineUp 1)
      else if (k =? "d")%string then Some Viewport.NavHalfPageDown
      else if (k =? "u")%string then Some Viewport.NavHalfPageUp
      else if (k =? "f")%string then Some Viewport.NavPageDown
      else if (k =? "b")%string then Some Viewport.NavPageUp
      else None
  | _ => None
  end.

Definition renderer : lipgloss.Renderer :=
  {| lipgloss.Style := Z;
     lipgloss.NewStyle := 0;
     lipgloss.Bold := fun _ st => st;
     lipgloss.Foreground := fun _ st => st;
     lipgloss.Background := fun _ st => st;
     lipgloss.Width := fun w _ => w;
     lipgloss.Align := fun _ st => st;
     lipgloss.Render := fun _ text => text;
     lipgloss.JoinVertical := fun _ blocks =>
       String.concat (String Go.LF EmptyString) blocks;
     lipgloss.ViewportView := fun m =>
       String.concat (String Go.LF EmptyString) (Viewport.lines m);
     lipgloss.ViewportBindings := keys |}.

Definition Layout : Type := @layout.Layout renderer.
Definition Op : Type := @layout.Op renderer.
Definition New : Layout := @layout.New renderer.
Definition run (ops : list Op) : Layout := layout.run ops New.

(** Five lines of content. *)
Definition fiveLines : string :=
  String.concat (String Go.LF EmptyString) ["a"; "b"; "c"; "d"; "e"].

(** Four lines of content. *)
Definition fourLines : string :=
  String.concat (String Go.LF EmptyString) ["a"; "b"; "c"; "d"].

(** A 80x12 terminal, bands of height 1: a viewport of height 10 that
    holds the four lines, in each alignment mode. *)
Definition fourIn10 (mode : layout.VerticalAlignment) : Layout :=
  run [layout.OpSetVerticalAlignment mode; layout.OpSetContent fourLines;
       layout.OpUpdate (tea.WindowSizeMsg 80 12)].

(** The same after the terminal shrank to 5 rows: a viewport of height 3. *)
Definition fourIn3 (mode : layout.VerticalAlignment) : Layout :=
  run [layout.OpSetVerticalAlignment mode; layout.OpSetContent fourLines;
       layout.OpUpdate (tea.WindowSizeMsg 80 12);
       layout.OpUpdate (tea.WindowSizeMsg 80 5)].

(** The five lines in a viewport of height 2 (a 80x4 terminal) and of
    height 1 (a 80x3 terminal). *)
Definition fiveIn2 : Layout :=
  run [layout.OpSetContent fiveLines; layout.OpUpdate (tea.WindowSizeMsg 80 4)].

Definition fiveIn1 : Layout :=
  run [layout.OpSetContent fiveLines; layout.OpUpdate (tea.WindowSizeMsg 80 3)].

(** The same, scrolled down by one line. *)
Definition scrolledOnce : Layout :=
  run [layout.OpSetContent fiveLines; layout.OpUpdate (tea.WindowSizeMsg 80 4);
       layout.OpLineDown].

(** Bottom alignment and an empty content set before the first resize. *)
Definition emptyBottom : Layout :=
  run [layout.OpSetVerticalAlignment layout.AlignBottom;
       layout.OpSetContent ""; layout.OpUpdate (tea.WindowSizeMsg 80 24)].


Definition zeroThenWide : Layout :=
  run [layout.OpSetContent "a"; layout.OpUpdate (tea.WindowSizeMsg 0 24);
       layout.OpUpdate (tea.WindowSizeMsg 80 24)].


(** An empty content set on a sized Layout, then Bottom alignment. *)
Definition emptyRealigned : Layout :=
  run [layout.OpUpdate (tea.WindowSizeMsg 80 24); layout.OpSetContent "";
       layout.OpSetVerticalAlignment layout.AlignBottom].

(** Ten lines of content. *)
Definition tenLines : string :=
  String.concat (String Go.LF EmptyString)
    ["a"; "b"; "c"; "d"; "e"; "f"; "g"; "h"; "i"; "j"].

(** The ten lines in a viewport of height 2, scrolled to the bottom, and
    the terminal then grown to 12 rows: a viewport of height 10. *)
Definition tallAfterBottom : Layout :=
  run [layout.OpSetContent tenLines; layout.OpUpdate (tea.WindowSizeMsg 80 4);
       layout.OpScrollToBottom; layout.OpUpdate (tea.WindowSizeMsg 80 12)].

(** The five lines in a viewport of height 2, scrolled to the bottom, and
    scrolled down by one page. *)
Definition fiveAtBottom : Layout :=
  run [layout.OpSetContent fiveLines; layout.OpUpdate (tea.WindowSizeMsg 80 4);
       layout.OpScrollToBottom].

Definition scrolledPage : Layout :=
  run [layout.OpSetContent fiveLines; layout.OpUpdate (tea.WindowSizeMsg 80 4);
       layout.OpPageDown].


End Plain.

(** ** Package [layout], continued *)
Module layout_more.

Section WithRenderer.

Context {R : lipgloss.Renderer}.

(** [Init]: no start-up command. *)
Definition Init (l : layout.Layout) : tea.Cmd := tea.NoCmd.

(** A run of messages through [Update]. *)
Definition feed (msgs : list tea.Msg) (l : layout.Layout) : layout.Layout :=
  fold_left (fun l msg => fst (layout.Update msg l)) msgs l.

End WithRenderer.

End layout_more.

(** ** Go primitives used by [main.go] *)
Module GoFmt.

(** The verb [%d] of [fmt.Sprintf] on an [int]. *)
Definition d (n : Z) : string := NilZero.string_of_int (Z.to_int n).

(** The values [x] takes in [for x := 1; x <= n; x++]. *)
Definition upTo (n : nat) : list Z := map Z.of_nat (seq 1 n).

End GoFmt.

(** ** Package [main]: the demo application ([main.go]) *)
Module app.

Section WithRenderer.

Context {R : lipgloss.Renderer}.

(** [Style.Padding], which the package [layout] does not use. *)
Variable Padding : list Z -> lipgloss.Style -> lipgloss.Style.

Definition version : string := "v1.0.0".

(** [testApp] holds a pointer to the Layout; the Layout it points to is
    passed along with the two flags. *)
Record testApp : Type := mkTestApp {
  layout : layout.Layout;
  showHelp : bool;
  showPosInfo : bool
}.

Definition set_layout (l : layout.Layout) (t : testApp) : testApp :=
  mkTestApp l (showHelp t) (showPosInfo t).
Definition set_showHelp (b : bool) (t : testApp) : testApp :=
  mkTestApp (layout t) b (showPosInfo t).
Definition set_showPosInfo (b : bool) (t : testApp) : testApp :=
  mkTestApp (layout t) (showHelp t) b.

Definition Init (t : testApp) : tea.Cmd := layout_more.Init (layout t).

Definition updateFooter (t : testApp) : testApp :=
  if showPosInfo t then
    set_layout
      (layout.SetFooter "Press 'p' to hide position info | 'q' to quit"
         (layout t)) t
  else if showHelp t then
    set_layout
      (layout.SetFooter
         "h: toggle help | p: show position | q: quit | ↑/↓, j/k: line | u/d: half page | page up/down | home/end, t/b: top/bottom"
         (layout t)) t
  else
    set_layout
      (layout.SetFooter
         "Press 'h' for help | 'p' for position info | 'q' to quit"
         (layout t)) t.

(** [Update]: the [switch] on the key string, case by case in the source's
    order; a key that matches no case and every other message go to the
    Layout's [Update]. *)
Definition Update (msg : tea.Msg) (t : testApp) : testApp * tea.Cmd :=
  let toLayout :=
    let (model, cmd) := layout.Update msg (layout t) in
    (set_layout model t, cmd) in
  match msg with
  | tea.KeyMsg key =>
      if ((key =? "q") || (key =? "ctrl+c"))%string%bool then (t, tea.Quit)
      else if ((key =? "j") || (key =? "down"))%string%bool then
        (set_layout (layout.LineDown (layout t)) t, tea.NoCmd)
      else if ((key =? "k") || (key =? "up"))%string%bool then
        (set_layout (layout.LineUp (layout t)) t, tea.NoCmd)
      else if (key =? "u")%string then
        (set_layout (layout.HalfPageUp (layout t)) t, tea.NoCmd)
      else if (key =? "d")%string then
        (set_layout (layout.HalfPageDown (layout t)) t, tea.NoCmd)
      else if (key =? "page_up")%string then
        (set_layout (layout.PageUp (layout t)) t, tea.NoCmd)
      else if (key =? "page_down")%string then
        (set_layout (layout.PageDown (layout t)) t, tea.NoCmd)
      else if ((key =? "home") || (key =? "t"))%string%bool then
        (set_layout (layout.ScrollToTop (layout t)) t, tea.NoCmd)
      else if ((key =? "end") || (key =? "b"))%string%bool then
        (set_layout (layout.ScrollToBottom (layout t)) t, tea.NoCmd)
      else if (key =? "h")%string then
        let t := set_showHelp (negb (showHelp t)) t in
        let t := if showHelp t then set_showPosInfo false t else t in
        let t := updateFooter t in
        (t, tea.NoCmd)
      else if (key =? "p")%string then
        let t := set_showPosInfo (negb (showPosInfo t)) t in
        let t :=
          if showPosInfo t then
            let t := set_showHelp false t in
            updateFooter t
          else updateFooter t in
        (t, tea.NoCmd)
      else toLayout
  | _ => toLayout
  end.

Definition View (t : testApp) : string := layout.View (layout t).

(** The steps of [main] up to the start of the event loop, for any two
    styles and any content. *)
Definition start (headerStyle footerStyle : lipgloss.Style) (content : string)
  : testApp :=
  let l := layout.New in
  let l := layout.SetHeader ("TUI Layout Scaffold Demo " ++ version) l in
  let l := layout.SetHeaderStyle headerStyle l in
  let l := layout.SetHeaderHeight 3 l in
  let l := layout.SetFooterStyle footerStyle l in
  let l := layout.SetContent content l in
  let app := mkTestApp l false false in
  updateFooter app.

(** [generateTestContent]: the [strings.Builder] is the accumulated
    string. *)
Definition help : string :=
  "Navigation Controls:
↑/↓, j/k      : Scroll up/down one line
PageUp/PageDown: Scroll full page up/down
Home/End       : Go to top/bottom
u/d           : Scroll half page up/down
t/b           : Go to top/bottom
h             : Toggle help in footer
p             : Show position info (snapshot)
q             : Quit".

Definition generateTestContent : string :=
  let content := "" in
  let helpStyle :=
    Padding [1]
      (lipgloss.Bold true
         (lipgloss.Background "#333333"
            (lipgloss.Foreground "#FFFF00" lipgloss.NewStyle))) in
  let content := content ++ lipgloss.Render helpStyle help in
  let content := content ++ String Go.LF (String Go.LF "") in
  let sectionStyle :=
    Padding [1; 0]
      (lipgloss.Align lipgloss.Center
         (lipgloss.Width 50
            (lipgloss.Bold true
               (lipgloss.Background "#8A2BE2"
                  (lipgloss.Foreground "#FFFFFF" lipgloss.NewStyle))))) in
  let content := content ++ lipgloss.Render sectionStyle "TOP OF CONTENT" in
  let content := content ++ String Go.LF (String Go.LF "") in
  let sectionCount := 10 in
  let linesPerSection := 30%nat in
  let content :=
    fold_left
      (fun content section =>
         let sectionHeader :=
           "Section " ++ GoFmt.d section ++ " of " ++ GoFmt.d sectionCount in
         let content := content ++ lipgloss.Render sectionStyle sectionHeader in
         let content := content ++ String Go.LF (String Go.LF "") in
         let content :=
           fold_left
             (fun content line =>
                let content :=
                  if Z.rem line 5 =? 0 then
                    let markerStyle :=
                      lipgloss.Bold true
                        (lipgloss.Foreground "#FF0000" lipgloss.NewStyle) in
                    let content :=
                      content ++
                      lipgloss.Render markerStyle
                        ("---- MARKER: Section " ++ GoFmt.d section ++
                         ", Line " ++ GoFmt.d line ++ " ----") in
                    content ++ String Go.LF ""
                  else content in
                let lineContent :=
                  "Section " ++ GoFmt.d section ++ ", Line " ++ GoFmt.d line ++
                  ": This is sample content for testing scrolling" ++
                  String Go.LF "" in
                if Z.rem line 2 =? 0 then
                  let lineStyle :=
                    lipgloss.Foreground "#AAAAAA" lipgloss.NewStyle in
                  content ++ lipgloss.Render lineStyle lineContent
                else content ++ lineContent)
             (GoFmt.upTo linesPerSection) content in
         content ++ String Go.LF "")
      (GoFmt.upTo (Z.to_nat sectionCount)) content in
  let content := content ++ lipgloss.Render sectionStyle "BOTTOM OF CONTENT" in
  let content := content ++ String Go.LF "" in
  content.

(** [main], up to the start of the event loop, with the styles it builds
    and the content it generates. *)
Definition mainStart : testApp :=
  let headerStyle :=
    lipgloss.Align lipgloss.Center
      (lipgloss.Width 100
         (Padding [1; 1]
            (lipgloss.Background "#8A2BE2"
               (lipgloss.Foreground "#FFFFFF"
                  (lipgloss.Bold true lipgloss.NewStyle))))) in
  let footerStyle :=
    lipgloss.Align lipgloss.Center
      (lipgloss.Width 100
         (Padding [0; 1]
            (lipgloss.Background "#333333"
               (lipgloss.Foreground "#FFFFFF"
                  (lipgloss.Bold true lipgloss.NewStyle))))) in
  start headerStyle footerStyle generateTestContent.

(** The event loop: one [Update] per message. *)
Definition feed (msgs : list tea.Msg) (t : testApp) : testApp :=
  fold_left (fun t msg => fst (Update msg t)) msgs t.

(** The footer text that belongs to the two flags. *)
Definition footerFor (t : testApp) : string :=
  if showPosInfo t then "Press 'p' to hide position info | 'q' to quit"
  else if showHelp t then
    "h: toggle help | p: show position | q: quit | ↑/↓, j/k: line | u/d: half page | page up/down | home/end, t/b: top/bottom"
  else "Press 'h' for help | 'p' for position info | 'q' to quit".

End WithRenderer.

End app.

(** The plain renderer's demo application, started on the five lines. *)
Module PlainApp.

Definition start : @app.testApp Plain.renderer :=
  @app.start Plain.renderer 0 0 Plain.fiveLines.

(** The plain renderer has no padding. *)
Definition mainStart : @app.testApp Plain.renderer :=
  @app.mainStart Plain.renderer (fun _ st => st).

End PlainApp.

(** * Properties *)

Import layout.

(** ** Strings and [int] arithmetic *)

Lemma append_nil_r (s : string) : s ++ "" = s.
Proof. induction s as [|c s IH]; simpl; [reflexivity | now rewrite IH]. Qed.

Lemma append_assoc (a b c : string) : (a ++ b) ++ c = a ++ (b ++ c).
Proof. induction a as [|x a IH]; simpl; [reflexivity | now rewrite IH]. Qed.

(** The builder loop writes the blank lines after what the builder held. *)
Lemma writeLF_blankLines (n : nat) (b : string) :
  Go.writeLF n b = b ++ Spec.blankLines (Z.of_nat n).
Proof.
  unfold Spec.blankLines. rewrite Nat2Z.id.
  revert b. induction n as [|n IH]; intros b.
  - cbn. now rewrite append_nil_r.
  - cbn [Go.writeLF]. rewrite IH, append_assoc. f_equal.
Qed.

Lemma writeLF_empty (z : Z) :
  Go.writeLF (Z.to_nat z) "" = Spec.blankLines z.
Proof.
  rewrite writeLF_blankLines. cbn [append].
  unfold Spec.blankLines. now rewrite Nat2Z.id.
Qed.

(** [strings.Count(s, "\n") + 1] is the specification's line count. *)
Lemma Count_lineCount (s : string) : Go.Count s + 1 = Spec.lineCount s.
Proof.
  unfold Spec.lineCount. f_equal.
  induction s as [|c s IH]; [reflexivity|].
  cbn [Go.Count list_ascii_of_string count_occ]. rewrite IH.
  destruct (ascii_dec c Go.LF) as [->|Hne].
  - rewrite Ascii.eqb_refl. lia.
  - apply Ascii.eqb_neq in Hne. rewrite Hne. lia.
Qed.


(** Truncating and floor division agree on a non-negative dividend. *)
Lemma div_floor (a : Z) : 0 <= a -> Go.div a 2 = a / 2.
Proof. intros H. unfold Go.div. apply Z.quot_div_nonneg; lia. Qed.

(** ** The Viewport *)

Ltac vp_unfold :=
  unfold Viewport.SetContent, Viewport.GotoBottom, Viewport.GotoTop,
    Viewport.LineDown, Viewport.LineUp, Viewport.SetYOffset,
    Viewport.AtTop, Viewport.AtBottom, Viewport.clamp, Viewport.maxYOffset,
    Viewport.len, Viewport.setYOffsetField, Viewport.setLines in *;
  cbn [Viewport.Width Viewport.Height Viewport.YOffset Viewport.YPosition
       Viewport.lines] in *.

Ltac vp_cases :=
  repeat match goal with
    | |- context [?a <? ?b] => destruct (Z.ltb_spec a b)
    | |- context [?a <=? ?b] => destruct (Z.leb_spec a b)
    | |- context [?a =? ?b] => destruct (Z.eqb_spec a b)
    end;
  cbn [orb andb negb fst snd];
  cbn [Viewport.Width Viewport.Height Viewport.YOffset Viewport.YPosition
       Viewport.lines].

Lemma split_length (s : string) : (1 <= List.length (Viewport.split s))%nat.
Proof.
  induction s as [|c s IH]; cbn [Viewport.split]; [cbn; lia|].
  destruct (Ascii.eqb c Go.LF); [cbn; lia|].
  destruct (Viewport.split s); cbn in *; lia.
Qed.

Lemma buffer_not_nil (s : string) : Spec.buffer s <> [].
Proof.
  unfold Spec.buffer. intros H.
  pose proof (split_length (Viewport.normalize s)) as Hl.
  rewrite H in Hl. cbn in Hl. lia.
Qed.

(** Setting a content replaces the buffer and leaves the frame alone. *)
Lemma SetContent_frame (s : string) (m : Viewport.Model) :
  Viewport.Width (Viewport.SetContent s m) = Viewport.Width m /\
  Viewport.Height (Viewport.SetContent s m) = Viewport.Height m /\
  Viewport.YPosition (Viewport.SetContent s m) = Viewport.YPosition m /\
  Viewport.lines (Viewport.SetContent s m) = Spec.buffer s.
Proof.
  unfold Spec.buffer. vp_unfold.
  destruct (_ <? _); cbn; auto.
Qed.

Lemma SetContent_idem (s : string) (m : Viewport.Model) :
  Viewport.SetContent s (Viewport.SetContent s m) = Viewport.SetContent s m.
Proof.
  pose proof (split_length (Viewport.normalize s)) as Hl.
  destruct m as [w h y p ls]. vp_unfold.
  set (n := Z.of_nat (List.length (Viewport.split (Viewport.normalize s)))) in *.
  assert (1 <= n) by (subst n; lia).
  destruct (Z.ltb_spec (n - 1) y); cbn.
  - vp_cases; try lia; f_equal; lia.
  - vp_cases; try lia; reflexivity.
Qed.

(** A scroll command moves the offset and nothing else. *)
Lemma LineDown_scrolls (n : Z) (m : Viewport.Model) :
  exists y, Viewport.LineDown n m = Viewport.setYOffsetField y m /\
            (Viewport.YOffset m = y \/ 0 <= y <= Viewport.maxYOffset m).
Proof.
  destruct m as [w h y p ls]. unfold Viewport.LineDown.
  destruct (_ || _ || _)%bool.
  - exists y. split; [reflexivity | now left].
  - eexists. split; [reflexivity|]. right. vp_unfold. vp_cases; lia.
Qed.

Lemma LineUp_scrolls (n : Z) (m : Viewport.Model) :
  exists y, Viewport.LineUp n m = Viewport.setYOffsetField y m /\
            (Viewport.YOffset m = y \/ 0 <= y <= Viewport.maxYOffset m).
Proof.
  destruct m as [w h y p ls]. unfold Viewport.LineUp.
  destruct (_ || _ || _)%bool.
  - exists y. split; [reflexivity | now left].
  - eexists. split; [reflexivity|]. right. vp_unfold. vp_cases; lia.
Qed.

Lemma GotoTop_scrolls (m : Viewport.Model) :
  exists y, Viewport.GotoTop m = Viewport.setYOffsetField y m /\
            (Viewport.YOffset m = y \/ 0 <= y <= Viewport.maxYOffset m).
Proof.
  destruct m as [w h y p ls]. unfold Viewport.GotoTop.
  destruct (Viewport.AtTop _).
  - exists y. split; [reflexivity | now left].
  - eexists. split; [reflexivity|]. right. vp_unfold. vp_cases; lia.
Qed.

Lemma GotoBottom_scrolls (m : Viewport.Model) :
  exists y, Viewport.GotoBottom m = Viewport.setYOffsetField y m /\
            (Viewport.YOffset m = y \/ 0 <= y <= Viewport.maxYOffset m).
Proof.
  destruct m as [w h y p ls].
  eexists. split; [reflexivity|]. right. vp_unfold. vp_cases; lia.
Qed.

Lemma navigate_scrolls (k : Viewport.Nav) (m : Viewport.Model) :
  exists y, Viewport.navigate k m = Viewport.setYOffsetField y m /\
            (Viewport.YOffset m = y \/ 0 <= y <= Viewport.maxYOffset m).
Proof.
  assert (Hid : exists y, m = Viewport.setYOffsetField y m /\
            (Viewport.YOffset m = y \/ 0 <= y <= Viewport.maxYOffset m)).
  { exists (Viewport.YOffset m). destruct m; split; [reflexivity | now left]. }
  destruct k; cbn [Viewport.navigate];
    try destruct (Viewport.AtBottom m); try destruct (Viewport.AtTop m);
    auto using LineDown_scrolls, LineUp_scrolls.
Qed.

Lemma Update_scrolls (km : tea.Msg -> option Viewport.Nav) (msg : tea.Msg)
  (m : Viewport.Model) :
  exists y, fst (Viewport.Update km msg m) = Viewport.setYOffsetField y m /\
            (Viewport.YOffset m = y \/ 0 <= y <= Viewport.maxYOffset m).
Proof.
  assert (Hid : exists y, m = Viewport.setYOffsetField y m /\
            (Viewport.YOffset m = y \/ 0 <= y <= Viewport.maxYOffset m)).
  { exists (Viewport.YOffset m). destruct m; split; [reflexivity | now left]. }
  destruct msg as [w h|k|t]; cbn [Viewport.Update fst]; [exact Hid| |].
  - destruct (km (tea.KeyMsg k)); cbn [fst]; auto using navigate_scrolls.
  - destruct (km (tea.OtherMsg t)); cbn [fst]; auto using navigate_scrolls.
Qed.

Lemma Update_cmd (km : tea.Msg -> option Viewport.Nav) (msg : tea.Msg)
  (m : Viewport.Model) :
  Viewport.Update km msg m = (fst (Viewport.Update km msg m), tea.NoCmd).
Proof.
  destruct msg as [w h|k|t]; cbn; [reflexivity| |].
  - now destruct (km (tea.KeyMsg k)).
  - now destruct (km (tea.OtherMsg t)).
Qed.

(** ** The alignment algorithm *)

Ltac lay :=
  cbn [header footer headerHeight footerHeight viewport windowWidth
       windowHeight headerStyle footerStyle pendingContent verticalAlign
       viewportContent set_header set_footer set_headerHeight
       set_footerHeight set_viewport set_windowWidth set_windowHeight
       set_headerStyle set_footerStyle set_pendingContent set_verticalAlign
       set_viewportContent fst snd negb andb orb Viewport.Update
       Viewport.New Viewport.Width Viewport.Height Viewport.YOffset
       Viewport.YPosition Viewport.lines Viewport.setWidth
       Viewport.setHeight Viewport.setYPosition] in *.

Section Alignment.

Context {R : lipgloss.Renderer}.

Lemma set_viewport_same (l : Layout) : set_viewport (viewport l) l = l.
Proof. now destruct l. Qed.

(** On an initialised Viewport, [applyAlignment] hands the Viewport the
    alignment function of the raw content, the mode and the height. *)
Lemma applyAlignment_aligned (l : Layout) :
  Viewport.Width (viewport l) <> 0 ->
  applyAlignment l =
  set_viewport
    (Viewport.SetContent
       (Spec.aligned (verticalAlign l) (Viewport.Height (viewport l))
          (viewportContent l))
       (viewport l)) l.
Proof.
  intros Hw. unfold applyAlignment, Spec.aligned.
  apply Z.eqb_neq in Hw. rewrite Hw, Count_lineCount.
  destruct (Z.ltb_spec (Spec.lineCount (viewportContent l))
              (Viewport.Height (viewport l))) as [Hlt|Hge]; [|reflexivity].
  destruct (verticalAlign l); [reflexivity| |].
  - rewrite writeLF_empty, div_floor by lia. reflexivity.
  - rewrite writeLF_empty. reflexivity.
Qed.

Lemma applyAlignment_unsized (l : Layout) :
  Viewport.Width (viewport l) = 0 -> applyAlignment l = l.
Proof. intros Hw. unfold applyAlignment. now rewrite Hw. Qed.

Lemma applyAlignment_keeps (l : Layout) :
  pendingContent (applyAlignment l) = pendingContent l /\
  viewportContent (applyAlignment l) = viewportContent l /\
  verticalAlign (applyAlignment l) = verticalAlign l /\
  headerHeight (applyAlignment l) = headerHeight l /\
  footerHeight (applyAlignment l) = footerHeight l /\
  windowHeight (applyAlignment l) = windowHeight l.
Proof.
  unfold applyAlignment.
  destruct (Viewport.Width (viewport l) =? 0); [repeat split|].
  destruct (Go.Count (viewportContent l) + 1 <? Viewport.Height (viewport l));
    [destruct (verticalAlign l) eqn:E|]; lay; rewrite ?E; repeat split.
Qed.

Lemma applyAlignment_size (l : Layout) :
  Viewport.Width (viewport (applyAlignment l)) = Viewport.Width (viewport l) /\
  Viewport.Height (viewport (applyAlignment l)) = Viewport.Height (viewport l) /\
  Viewport.YPosition (viewport (applyAlignment l)) =
    Viewport.YPosition (viewport l).
Proof.
  destruct (Z.eqb_spec (Viewport.Width (viewport l)) 0) as [Hw|Hw].
  - rewrite (applyAlignment_unsized l Hw). auto.
  - rewrite (applyAlignment_aligned l Hw). lay.
    destruct (SetContent_frame
                (Spec.aligned (verticalAlign l) (Viewport.Height (viewport l))
                   (viewportContent l)) (viewport l)) as (-> & -> & -> & _).
    auto.
Qed.

(** The buffer [applyAlignment] leaves is a function of the raw content,
    the mode and the height. *)
Lemma applyAlignment_buffer (l : Layout) :
  Viewport.lines (viewport (applyAlignment l)) =
    if Viewport.Width (viewport l) =? 0 then Viewport.lines (viewport l)
    else Spec.buffer (Spec.aligned (verticalAlign l)
                        (Viewport.Height (viewport l)) (viewportContent l)).
Proof.
  destruct (Z.eqb_spec (Viewport.Width (viewport l)) 0) as [Hw|Hw].
  - now rewrite (applyAlignment_unsized l Hw).
  - rewrite (applyAlignment_aligned l Hw). lay.
    now destruct (SetContent_frame
                    (Spec.aligned (verticalAlign l)
                       (Viewport.Height (viewport l)) (viewportContent l))
                    (viewport l)) as (_ & _ & _ & ->).
Qed.

(** C1.  On an initialised Viewport of height [H] holding raw content [C]:
    when [lineCount C < H], Top alignment sets [C] unchanged, Center sets
    [floor ((H - lineCount C) / 2)] blank lines followed by [C], Bottom sets
    [H - lineCount C] blank lines followed by [C]; when [lineCount C >= H]
    the content set is [C] exactly, in every mode. *)
Theorem applyAlignment_padding (l : Layout) :
  Viewport.Width (viewport l) <> 0 ->
  let C := viewportContent l in
  let H := Viewport.Height (viewport l) in
  let set content :=
    set_viewport (Viewport.SetContent content (viewport l)) l in
  (Spec.lineCount C < H ->
     (verticalAlign l = AlignTop -> applyAlignment l = set C) /\
     (verticalAlign l = AlignCenter ->
        applyAlignment l =
        set (Spec.blankLines ((H - Spec.lineCount C) / 2) ++ C)) /\
     (verticalAlign l = AlignBottom ->
        applyAlignment l = set (Spec.blankLines (H - Spec.lineCount C) ++ C)))
  /\ (H <= Spec.lineCount C -> applyAlignment l = set C).
Proof.
  intros Hw C H set. rewrite (applyAlignment_aligned l Hw).
  fold C H. unfold Spec.aligned. split.
  - intros Hlt. apply Z.ltb_lt in Hlt. rewrite Hlt.
    repeat split; intros ->; reflexivity.
  - intros Hge. apply Z.ltb_ge in Hge. now rewrite Hge.
Qed.

(** C5.  Running the alignment twice in succession gives the state of one
    run: it never reads the buffer it wrote, keeps the raw content, the mode
    and the height, and the buffer it leaves is a function of these three. *)
Theorem applyAlignment_idempotent (l : Layout) :
  applyAlignment (applyAlignment l) = applyAlignment l /\
  viewportContent (applyAlignment l) = viewportContent l /\
  verticalAlign (applyAlignment l) = verticalAlign l /\
  Viewport.Height (viewport (applyAlignment l)) = Viewport.Height (viewport l) /\
  Viewport.lines (viewport (applyAlignment l)) =
    if Viewport.Width (viewport l) =? 0 then Viewport.lines (viewport l)
    else Spec.buffer (Spec.aligned (verticalAlign l)
                        (Viewport.Height (viewport l)) (viewportContent l)).
Proof.
  destruct (applyAlignment_keeps l) as (_ & Hraw & Hmode & _).
  destruct (applyAlignment_size l) as (HW & HH & _).
  split; [|now auto using applyAlignment_buffer].
  destruct (Z.eqb_spec (Viewport.Width (viewport l)) 0) as [Hw|Hw].
  - now rewrite !(applyAlignment_unsized l Hw).
  - rewrite (applyAlignment_aligned (applyAlignment l))
      by (now rewrite HW).
    rewrite Hraw, Hmode, HH.
    rewrite (applyAlignment_aligned l Hw). lay.
    now rewrite SetContent_idem.
Qed.

End Alignment.

(** ** Sizing: pending content and the first resize *)

Section Sizing.

Context {R : lipgloss.Renderer}.

Lemma SetContent_unsized (C : string) (l : Layout) :
  Viewport.Width (viewport l) = 0 ->
  SetContent C l = set_pendingContent C (set_viewportContent C l).
Proof. intros Hw. unfold SetContent. lay. now rewrite Hw. Qed.

Lemma SetContent_sized (C : string) (l : Layout) :
  Viewport.Width (viewport l) <> 0 ->
  SetContent C l = applyAlignment (set_viewportContent C l).
Proof.
  intros Hw. unfold SetContent. lay. apply Z.eqb_neq in Hw. now rewrite Hw.
Qed.

Lemma SetVerticalAlignment_unsized (a : VerticalAlignment) (l : Layout) :
  Viewport.Width (viewport l) = 0 ->
  SetVerticalAlignment a l = set_verticalAlign a l.
Proof.
  intros Hw. unfold SetVerticalAlignment. lay. rewrite Hw.
  now rewrite andb_false_r.
Qed.

(** The first resize event: the Viewport is constructed, and the pending
    content, when there is one, becomes the raw content and is aligned. *)
Lemma Update_first_resize (w h : Z) (l : Layout) :
  Viewport.Width (viewport l) = 0 ->
  let H := Go.sub (Go.sub h (headerHeight l)) (footerHeight l) in
  let l' :=
    set_viewport (Viewport.New w H)
      (set_footerStyle (lipgloss.Width w (footerStyle l))
         (set_headerStyle (lipgloss.Width w (headerStyle l))
            (set_windowHeight h (set_windowWidth w l)))) in
  Update (tea.WindowSizeMsg w h) l =
  (if (pendingContent l =? "")%string then l'
   else applyAlignment
          (set_pendingContent "" (set_viewportContent (pendingContent l) l')),
   tea.NoCmd).
Proof.
  intros Hw H l'. unfold Update. lay. rewrite Hw. cbn [Z.eqb].
  destruct (pendingContent l =? "")%string; lay.
  - reflexivity.
  - now rewrite set_viewport_same.
Qed.

(** Every later resize event: the Viewport is resized in place and the raw
    content is aligned again. *)
Lemma Update_later_resize (w h : Z) (l : Layout) :
  Viewport.Width (viewport l) <> 0 ->
  let H := Go.sub (Go.sub h (headerHeight l)) (footerHeight l) in
  Update (tea.WindowSizeMsg w h) l =
  (applyAlignment
     (set_viewport (Viewport.setHeight H (Viewport.setWidth w (viewport l)))
        (set_footerStyle (lipgloss.Width w (footerStyle l))
           (set_headerStyle (lipgloss.Width w (headerStyle l))
              (set_windowHeight h (set_windowWidth w l))))),
   tea.NoCmd).
Proof.
  intros Hw H. unfold Update. lay. apply Z.eqb_neq in Hw. rewrite Hw.
  now rewrite set_viewport_same.
Qed.

End Sizing.

Section PendingContent.

Context {R : lipgloss.Renderer}.


(** C10.  After [SetContent ""] on an unsized Layout the first resize event
    skips the alignment: the Viewport is the one just constructed, its
    buffer is the empty default and not the buffer any [SetContent] would
    leave, whatever the alignment mode is. *)
Theorem first_resize_skips_empty_pending
  (l : Layout) (a : VerticalAlignment) (w h : Z) :
  Viewport.Width (viewport l) = 0 ->
  let l1 := SetVerticalAlignment a (SetContent "" l) in
  let l2 := fst (Update (tea.WindowSizeMsg w h) l1) in
  let H := Go.sub (Go.sub h (headerHeight l)) (footerHeight l) in
  pendingContent l1 = "" /\
  verticalAlign l2 = a /\
  viewport l2 = Viewport.New w H /\
  Viewport.lines (viewport l2) = [] /\
  viewportContent l2 = "" /\
  forall s m,
    Viewport.lines (viewport l2) <> Viewport.lines (Viewport.SetContent s m).
Proof.
  intros Hw. cbv zeta.
  rewrite (SetContent_unsized "" l Hw).
  rewrite SetVerticalAlignment_unsized by exact Hw.
  rewrite Update_first_resize by exact Hw.
  cbn [fst]. lay. cbn [String.eqb].
  do 5 (split; [reflexivity|]).
  intros s m.
  destruct (SetContent_frame s m) as (_ & _ & _ & ->).
  intros Hnil. symmetry in Hnil. exact (buffer_not_nil s Hnil).
Qed.

End PendingContent.

(** ** The Layout as a state machine *)

Section StateMachine.

Context {R : lipgloss.Renderer}.

(** What a scroll operation does to the Layout: it moves the offset, to
    where it was or to a valid offset. *)
Lemma exec_scrolls (o : Op) (l : Layout) :
  scrolls o = true ->
  exists y,
    exec o l = set_viewport (Viewport.setYOffsetField y (viewport l)) l /\
    (Viewport.YOffset (viewport l) = y \/
     0 <= y <= Viewport.maxYOffset (viewport l)).
Proof.
  assert (Hid : exists y,
    l = set_viewport (Viewport.setYOffsetField y (viewport l)) l /\
    (Viewport.YOffset (viewport l) = y \/
     0 <= y <= Viewport.maxYOffset (viewport l))).
  { exists (Viewport.YOffset (viewport l)). split; [|now left].
    destruct l as [? ? ? ? v ? ? ? ? ? ? ?]. now destruct v. }
  destruct o as [| | | | | | | |[w h|k|t]| | | | | | | | |]; cbn [scrolls];
    try discriminate; intros _; cbn [exec].
  - unfold Update.
    destruct ((k =? "ctrl+c")%string || (k =? "q")%string)%bool;
      [exact Hid|].
    rewrite Update_cmd. cbn [fst].
    destruct (Update_scrolls lipgloss.ViewportBindings (tea.KeyMsg k)
                (viewport l)) as (y & -> & Hy).
    now exists y.
  - unfold Update. rewrite Update_cmd. cbn [fst].
    destruct (Update_scrolls lipgloss.ViewportBindings (tea.OtherMsg t)
                (viewport l)) as (y & -> & Hy).
    now exists y.
  - unfold LineDown.
    destruct (LineDown_scrolls 1 (viewport l)) as (y & -> & Hy). now exists y.
  - unfold LineUp.
    destruct (LineUp_scrolls 1 (viewport l)) as (y & -> & Hy). now exists y.
  - unfold HalfPageDown.
    destruct (LineDown_scrolls (Go.div (Viewport.Height (viewport l)) 2)
                (viewport l)) as (y & -> & Hy). now exists y.
  - unfold HalfPageUp.
    destruct (LineUp_scrolls (Go.div (Viewport.Height (viewport l)) 2)
                (viewport l)) as (y & -> & Hy). now exists y.
  - unfold PageDown.
    destruct (LineDown_scrolls (Viewport.Height (viewport l)) (viewport l))
      as (y & -> & Hy). now exists y.
  - unfold PageUp.
    destruct (LineUp_scrolls (Viewport.Height (viewport l)) (viewport l))
      as (y & -> & Hy). now exists y.
  - unfold ScrollToTop.
    destruct (GotoTop_scrolls (viewport l)) as (y & -> & Hy). now exists y.
  - unfold ScrollToBottom.
    destruct (GotoBottom_scrolls (viewport l)) as (y & -> & Hy). now exists y.
Qed.

(** The resize event, in both branches: the Viewport gets the event's width
    and the computed height, the band heights stay. *)
Lemma Update_resize_size (w h : Z) (l : Layout) :
  let l' := fst (Update (tea.WindowSizeMsg w h) l) in
  Viewport.Width (viewport l') = w /\
  Viewport.Height (viewport l') =
    Go.sub (Go.sub h (headerHeight l)) (footerHeight l) /\
  windowWidth l' = w /\ windowHeight l' = h /\
  headerHeight l' = headerHeight l /\ footerHeight l' = footerHeight l.
Proof.
  cbv zeta.
  destruct (Z.eqb_spec (Viewport.Width (viewport l)) 0) as [Hw|Hw].
  - rewrite (Update_first_resize w h l Hw). cbn [fst].
    destruct (pendingContent l =? "")%string.
    + lay. repeat split.
    + match goal with
      | |- context [applyAlignment ?x] =>
          destruct (applyAlignment_size x) as (-> & -> & _);
          destruct (applyAlignment_keeps x) as (_ & _ & _ & -> & -> & ->)
      end.
      unfold applyAlignment.
      destruct (_ =? 0); [repeat split|].
      destruct (_ <? _); [destruct (verticalAlign _)|]; repeat split.
  - rewrite (Update_later_resize w h l Hw). cbn [fst].
    match goal with
    | |- context [applyAlignment ?x] =>
        destruct (applyAlignment_size x) as (-> & -> & _);
        destruct (applyAlignment_keeps x) as (_ & _ & _ & -> & -> & ->)
    end.
    unfold applyAlignment.
    destruct (_ =? 0); [repeat split|].
    destruct (_ <? _); [destruct (verticalAlign _)|]; repeat split.
Qed.

(** Only a resize event changes the Viewport's width. *)
Lemma exec_width (o : Op) (l : Layout) :
  Viewport.Width (viewport (exec o l)) =
  match o with
  | OpUpdate (tea.WindowSizeMsg w _) => w
  | _ => Viewport.Width (viewport l)
  end.
Proof.
  destruct (scrolls o) eqn:Hs.
  { destruct (exec_scrolls o l Hs) as (y & -> & _).
    destruct o as [| | | | | | | |[w h|k|t]| | | | | | | | |];
      try discriminate; reflexivity. }
  destruct o as [| | | | | |c|a|[w h|k|t]|y| | | | | | | |];
    try discriminate; cbn [exec]; try reflexivity.
  - unfold SetContent. lay.
    destruct (_ =? 0); [reflexivity|].
    now destruct (applyAlignment_size (set_viewportContent c l)) as (-> & _).
  - unfold SetVerticalAlignment. lay.
    destruct (_ && _)%bool; [|reflexivity].
    now destruct (applyAlignment_size (set_verticalAlign a l)) as (-> & _).
  - now destruct (Update_resize_size w h l) as (-> & _).
Qed.

(** The pending content mirrors the raw content while the Layout is
    unsized and is empty once it is sized. *)
Lemma exec_pending (o : Op) (l : Layout) :
  resizeOk o ->
  (Viewport.Width (viewport l) = 0 -> pendingContent l = viewportContent l) /\
  (Viewport.Width (viewport l) <> 0 -> pendingContent l = "") ->
  (Viewport.Width (viewport (exec o l)) = 0 ->
   pendingContent (exec o l) = viewportContent (exec o l)) /\
  (Viewport.Width (viewport (exec o l)) <> 0 -> pendingContent (exec o l) = "").
Proof.
  intros Hok Hinv.
  destruct (scrolls o) eqn:Hs.
  { destruct (exec_scrolls o l Hs) as (y & -> & _). exact Hinv. }
  destruct o as [| | | | | |c|a|[w h|k|t]|y| | | | | | | |];
    try discriminate; cbn [exec]; try exact Hinv.
  - destruct (Z.eqb_spec (Viewport.Width (viewport l)) 0) as [Hw|Hw].
    + rewrite (SetContent_unsized c l Hw). lay.
      split; [reflexivity | intros H; contradiction].
    + rewrite (SetContent_sized c l Hw).
      destruct (applyAlignment_size (set_viewportContent c l)) as (-> & _).
      destruct (applyAlignment_keeps (set_viewportContent c l)) as (-> & _).
      lay. split; [intros H; contradiction | apply Hinv].
  - unfold SetVerticalAlignment. lay.
    destruct (_ && _)%bool; [|exact Hinv].
    destruct (applyAlignment_size (set_verticalAlign a l)) as (-> & _).
    destruct (applyAlignment_keeps (set_verticalAlign a l)) as (-> & -> & _).
    exact Hinv.
  - cbn [resizeOk] in Hok.
    destruct (Update_resize_size w h l) as (-> & _).
    split; [intros H; contradiction | intros _].
    destruct (Z.eqb_spec (Viewport.Width (viewport l)) 0) as [Hw|Hw].
    + rewrite (Update_first_resize w h l Hw). cbn [fst].
      destruct (pendingContent l =? "")%string eqn:Hp.
      * apply String.eqb_eq in Hp. exact Hp.
      * match goal with
        | |- context [applyAlignment ?x] =>
            destruct (applyAlignment_keeps x) as (-> & _)
        end.
        reflexivity.
    + rewrite (Update_later_resize w h l Hw). cbn [fst].
      match goal with
      | |- context [applyAlignment ?x] =>
          destruct (applyAlignment_keeps x) as (-> & _)
      end.
      lay. now apply Hinv.
Qed.




End StateMachine.

Section PendingOnce.

Context {R : lipgloss.Renderer}.


End PendingOnce.

Section Invariants.

Context {R : lipgloss.Renderer}.


(** C9.  [View] is the fixed placeholder while [windowHeight] is 0, which is
    the case in every state reached before the first resize event, and
    otherwise the styled header, the Viewport's rendering and the styled
    footer, joined as one left-aligned vertical stack. *)
Theorem View_spec :
  (forall l : Layout, windowHeight l = 0 -> View l = "Initializing...") /\
  (forall ops : list Op,
     forallb (fun o => negb (isResize o)) ops = true ->
     View (run ops New) = "Initializing...") /\
  (forall l : Layout,
     windowHeight l <> 0 ->
     View l =
     lipgloss.JoinVertical lipgloss.Left
       [lipgloss.Render (headerStyle l) (header l);
        lipgloss.ViewportView (viewport l);
        lipgloss.Render (footerStyle l) (footer l)]).
Proof.
  assert (H0 : forall l : Layout,
            windowHeight l = 0 -> View l = "Initializing...").
  { intros l H. unfold View. now rewrite H. }
  split; [exact H0|]. split.
  - intros ops Hops. apply H0.
    assert (Hgen : forall l : Layout,
              windowHeight l = 0 -> windowHeight (run ops l) = 0).
    { induction ops as [|o ops IH]; intros l Hl; [exact Hl|].
      cbn [forallb] in Hops. apply andb_true_iff in Hops as [Ho Hops].
      change (run (o :: ops) l) with (run ops (exec o l)).
      apply (IH Hops).
      destruct (scrolls o) eqn:Hs.
      { destruct (exec_scrolls o l Hs) as (y & -> & _). exact Hl. }
      destruct o as [| | | | | |c|a|[w h|k|t]| | | | | | | | |];
        try discriminate; cbn [exec]; try exact Hl.
      - unfold SetContent. lay.
        destruct (_ =? 0); [exact Hl|].
        match goal with
        | |- context [applyAlignment ?x] =>
            destruct (applyAlignment_keeps x) as (_ & _ & _ & _ & _ & ->)
        end.
        exact Hl.
      - unfold SetVerticalAlignment. lay.
        destruct (_ && _)%bool; [|exact Hl].
        match goal with
        | |- context [applyAlignment ?x] =>
            destruct (applyAlignment_keeps x) as (_ & _ & _ & _ & _ & ->)
        end.
        exact Hl. }
    apply Hgen. reflexivity.
  - intros l H. unfold View. apply Z.eqb_neq in H. now rewrite H.
Qed.

End Invariants.

(** ** The content invariant *)

Section ContentInvariant.

Context {R : lipgloss.Renderer}.

(** The invariant only reads the Viewport's size and buffer, the two
    contents and the mode. *)
Lemma contentInv_frame (l l' : Layout) :
  Viewport.Width (viewport l') = Viewport.Width (viewport l) ->
  Viewport.Height (viewport l') = Viewport.Height (viewport l) ->
  Viewport.lines (viewport l') = Viewport.lines (viewport l) ->
  pendingContent l' = pendingContent l ->
  viewportContent l' = viewportContent l ->
  verticalAlign l' = verticalAlign l ->
  Spec.contentInv l -> Spec.contentInv l'.
Proof.
  unfold Spec.contentInv, Spec.Aligned, Sized.
  intros -> -> -> -> -> ->. exact (fun H => H).
Qed.

(** After [applyAlignment] on an initialised Viewport the invariant holds,
    whatever the state was. *)
Lemma applyAlignment_contentInv (l : Layout) :
  Viewport.Width (viewport l) <> 0 -> Spec.contentInv (applyAlignment l).
Proof.
  intros Hw. unfold Spec.contentInv, Spec.Aligned, Sized.
  destruct (applyAlignment_size l) as (HW & HH & _).
  destruct (applyAlignment_keeps l) as (_ & Hraw & Hmode & _).
  rewrite HW, HH, Hraw, Hmode, (applyAlignment_buffer l).
  apply Z.eqb_neq in Hw. rewrite Hw. apply Z.eqb_neq in Hw.
  split; [intros H0; contradiction | reflexivity].
Qed.

Lemma exec_contentInv (o : Op) (l : Layout) :
  resizeOk o -> Spec.contentInv l -> Spec.contentInv (exec o l).
Proof.
  intros Hok Hinv.
  destruct (scrolls o) eqn:Hs.
  { destruct (exec_scrolls o l Hs) as (y & -> & _).
    revert Hinv. now apply contentInv_frame. }
  destruct o as [| | | | | |c|a|[w h|k|t]|y| | | | | | | |];
    try discriminate; cbn [exec];
    try (revert Hinv; now apply contentInv_frame).
  - (* SetContent *)
    destruct (Z.eqb_spec (Viewport.Width (viewport l)) 0) as [Hw|Hw].
    + rewrite (SetContent_unsized c l Hw).
      unfold Spec.contentInv, Sized. lay. rewrite Hw.
      split; [reflexivity | lia].
    + rewrite (SetContent_sized c l Hw).
      apply applyAlignment_contentInv. exact Hw.
  - (* SetVerticalAlignment *)
    unfold SetVerticalAlignment. lay.
    destruct (viewportContent l =? "")%string eqn:Hc;
      destruct (Z.ltb_spec 0 (Viewport.Width (viewport l))) as [Hw|Hw];
      cbn [negb andb].
    + apply String.eqb_eq in Hc. destruct Hinv as [H0 _].
      unfold Spec.contentInv, Sized. lay. split; [exact H0|].
      intros _ Hne. contradiction.
    + apply String.eqb_eq in Hc. destruct Hinv as [H0 _].
      unfold Spec.contentInv, Sized. lay. split; [exact H0|].
      intros _ Hne. contradiction.
    + apply applyAlignment_contentInv. lay. lia.
    + destruct Hinv as [H0 _].
      unfold Spec.contentInv, Sized. lay. split; [exact H0 | lia].
  - (* resize *)
    cbn [resizeOk] in Hok.
    destruct (Z.eqb_spec (Viewport.Width (viewport l)) 0) as [Hw|Hw].
    + rewrite (Update_first_resize w h l Hw). cbn [fst].
      destruct Hinv as [H0 _]. specialize (H0 Hw).
      destruct (pendingContent l =? "")%string eqn:Hp.
      * apply String.eqb_eq in Hp.
        unfold Spec.contentInv, Sized. lay.
        split; [intros Hz; contradiction|].
        intros _ Hne. rewrite <- H0 in Hne. contradiction.
      * apply applyAlignment_contentInv. lay. exact Hok.
    + rewrite (Update_later_resize w h l Hw). cbn [fst].
      apply applyAlignment_contentInv. lay. exact Hok.
Qed.

Lemma run_contentInv (ops : list Op) (l : Layout) :
  Forall resizeOk ops -> Spec.contentInv l -> Spec.contentInv (run ops l).
Proof.
  intros Hops. revert l.
  induction Hops as [|o ops Ho _ IH]; intros l Hinv; [exact Hinv|].
  change (run (o :: ops) l) with (run ops (exec o l)).
  apply IH. now apply exec_contentInv.
Qed.

(** C4 (amended).  In every state reached from [New] by setters, scroll
    operations and events whose resize events carry a width other than 0:
    if the Layout is sized and the raw content is not empty, the Viewport's
    buffer is the alignment function of the current raw content, mode and
    Viewport height. *)
Theorem sized_content_is_aligned (ops : list Op) :
  Forall resizeOk ops ->
  let l := run ops New in
  Sized l -> viewportContent l <> "" ->
  Viewport.lines (viewport l) =
  Spec.buffer
    (Spec.aligned (verticalAlign l) (Viewport.Height (viewport l))
       (viewportContent l)).
Proof.
  intros Hops l Hsized Hne.
  assert (Hinv : Spec.contentInv l).
  { apply run_contentInv; [exact Hops|].
    unfold Spec.contentInv, Sized. cbn. split; [reflexivity | lia]. }
  destruct Hinv as [_ H]. exact (H Hsized Hne).
Qed.

End ContentInvariant.

(** ** Scroll navigation *)

Ltac vp_if :=
  match goal with
  | |- context [if ?c then _ else _] =>
      lazymatch c with
      | context [if _ then _ else _] => fail
      | _ => let E := fresh "E" in destruct c eqn:E
      end
  end;
  cbn [Viewport.Width Viewport.Height Viewport.YOffset Viewport.YPosition
       Viewport.lines] in *.

Ltac vp_props :=
  repeat rewrite ?orb_true_iff, ?orb_false_iff, ?Z.leb_le, ?Z.leb_gt,
    ?Z.ltb_lt, ?Z.ltb_ge, ?Z.eqb_eq, ?Z.eqb_neq in *.

Ltac vp_solve :=
  vp_unfold; repeat vp_if; vp_props;
  try reflexivity; try lia; try (f_equal; lia).

Section Scrolling.

Context {R : lipgloss.Renderer}.

Lemma SetContent_offset (s : string) (m : Viewport.Model) :
  0 <= Viewport.YOffset m -> 0 <= Viewport.YOffset (Viewport.SetContent s m).
Proof.
  destruct m as [w h y p ls]. vp_unfold. intros Hy.
  destruct (_ <? y); cbn; [vp_cases|]; lia.
Qed.

Lemma applyAlignment_offset (l : Layout) :
  0 <= Viewport.YOffset (viewport l) ->
  0 <= Viewport.YOffset (viewport (applyAlignment l)).
Proof.
  intros Hy.
  destruct (Z.eqb_spec (Viewport.Width (viewport l)) 0) as [Hw|Hw].
  - now rewrite (applyAlignment_unsized l Hw).
  - rewrite (applyAlignment_aligned l Hw). lay. now apply SetContent_offset.
Qed.

Lemma exec_offset (o : Op) (l : Layout) :
  0 <= Viewport.YOffset (viewport l) ->
  0 <= Viewport.YOffset (viewport (exec o l)).
Proof.
  intros Hy.
  destruct (scrolls o) eqn:Hs.
  { destruct (exec_scrolls o l Hs) as (y & -> & [<-|Hr]); lay;
      cbn [Viewport.setYOffsetField Viewport.YOffset]; lia. }
  destruct o as [| | | | | |c|a|[w h|k|t]|y| | | | | | | |];
    try discriminate; cbn [exec]; try exact Hy.
  - unfold SetContent. lay.
    destruct (_ =? 0); [exact Hy|]. now apply applyAlignment_offset.
  - unfold SetVerticalAlignment. lay.
    destruct (_ && _)%bool; [|exact Hy]. now apply applyAlignment_offset.
  - destruct (Z.eqb_spec (Viewport.Width (viewport l)) 0) as [Hw|Hw].
    + rewrite (Update_first_resize w h l Hw). cbn [fst].
      destruct (_ =? _)%string; [cbn; lia|].
      apply applyAlignment_offset. cbn. lia.
    + rewrite (Update_later_resize w h l Hw). cbn [fst].
      apply applyAlignment_offset. exact Hy.
Qed.

(** In every state the program can be in, the scroll offset is not
    negative. *)
Lemma run_offset (ops : list Op) (l : Layout) :
  0 <= Viewport.YOffset (viewport l) ->
  0 <= Viewport.YOffset (viewport (run ops l)).
Proof.
  revert l. induction ops as [|o ops IH]; intros l Hy; [exact Hy|].
  change (run (o :: ops) l) with (run ops (exec o l)).
  apply IH. now apply exec_offset.
Qed.

Lemma div_even (H : Z) : Z.even H = true -> Go.div H 2 + Go.div H 2 = H.
Proof.
  intros He. apply Z.even_spec in He as [k ->].
  unfold Go.div. rewrite Z.mul_comm, Z.quot_mul by lia. lia.
Qed.

(** C6 (amended).  With a viewport height [H >= 0] and an offset [Y] in
    the valid range [0 <= Y <= M], one half-page scroll moves the offset by
    [floor (H / 2)] lines and one page scroll by [H] lines, stopping at the
    boundary: the new offset is [min (Y + d) M], or [max (Y - d) 0]; for an
    even [H], two half pages down from the top are one page down from the
    top; with [H = 1] a half-page scroll does nothing. *)
Theorem page_scroll_distances (l : Layout) :
  let H := Viewport.Height (viewport l) in
  let Y := Viewport.YOffset (viewport l) in
  let M := Viewport.maxYOffset (viewport l) in
  (0 <= H -> 0 <= Y <= M ->
     Viewport.YOffset (viewport (HalfPageDown l)) = Z.min (Y + H / 2) M /\
     Viewport.YOffset (viewport (HalfPageUp l)) = Z.max (Y - H / 2) 0 /\
     Viewport.YOffset (viewport (PageDown l)) = Z.min (Y + H) M /\
     Viewport.YOffset (viewport (PageUp l)) = Z.max (Y - H) 0) /\
  (Z.even H = true -> Y = 0 -> HalfPageDown (HalfPageDown l) = PageDown l) /\
  (H = 1 -> HalfPageDown l = l /\ HalfPageUp l = l).
Proof.
  destruct l as [hd ft hh fh [w h y p ls] ww wh hs fs pc va vc].
  cbv zeta. lay. split; [|split].
  - intros HH HY.
    unfold HalfPageDown, HalfPageUp, PageDown, PageUp. lay.
    rewrite (div_floor h HH).
    assert (Hq : 0 <= h / 2) by (apply Z.div_pos; lia).
    revert HY Hq. generalize (h / 2). intros q HY Hq.
    repeat split; vp_solve.
  - intros He Hy. subst y.
    pose proof (div_even h He) as Hd.
    unfold HalfPageDown, PageDown, set_viewport. lay. f_equal.
    vp_unfold. repeat vp_if.
    all: set (q := Go.div h 2) in *; clearbody q; vp_props.
    all: try reflexivity; try lia; f_equal; lia.
  - intros ->. unfold HalfPageDown, HalfPageUp. lay.
    change (Go.div 1 2) with 0.
    unfold Viewport.LineDown, Viewport.LineUp. cbn [Z.eqb].
    rewrite !orb_true_r. cbn [orb]. split; reflexivity.
Qed.

(** C7 (amended).  In every state the program can be in: after
    [ScrollToBottom] the offset is the maximum valid offset and [LineDown]
    changes nothing; after [ScrollToTop] the offset is 0 and [LineUp]
    changes nothing; no scroll operation leaves an offset below 0 or,
    unless the offset was there before, above the maximum valid offset;
    and from an offset within the valid range, in a viewport whose height
    is not negative, every scroll function moves by its distance and stops
    exactly at the boundary it would pass. *)
Theorem scroll_clamps_at_boundaries (ops : list Op) :
  let l := run ops New in
  let H := Viewport.Height (viewport l) in
  let Y := Viewport.YOffset (viewport l) in
  let M := Viewport.maxYOffset (viewport l) in
  (Viewport.YOffset (viewport (ScrollToBottom l)) = M /\
   LineDown (ScrollToBottom l) = ScrollToBottom l) /\
  (Viewport.YOffset (viewport (ScrollToTop l)) = 0 /\
   LineUp (ScrollToTop l) = ScrollToTop l) /\
  (forall o : Op,
     scrolls o = true ->
     0 <= Viewport.YOffset (viewport (exec o l)) <= Z.max Y M) /\
  Y <= Viewport.YOffset (viewport (LineDown l)) /\
  Viewport.YOffset (viewport (LineUp l)) <= Y /\
  0 <= Y /\
  (0 <= H -> Y <= M ->
   Viewport.YOffset (viewport (LineDown l)) = Z.min (Y + 1) M /\
   Viewport.YOffset (viewport (LineUp l)) = Z.max (Y - 1) 0 /\
   Viewport.YOffset (viewport (PageDown l)) = Z.min (Y + H) M /\
   Viewport.YOffset (viewport (PageUp l)) = Z.max (Y - H) 0 /\
   Viewport.YOffset (viewport (HalfPageDown l)) = Z.min (Y + H / 2) M /\
   Viewport.YOffset (viewport (HalfPageUp l)) = Z.max (Y - H / 2) 0).
Proof.
  cbv zeta.
  assert (Hy : 0 <= Viewport.YOffset (viewport (run ops New)))
    by (apply run_offset; cbn; lia).
  revert Hy. generalize (run ops New). intros l Hy.
  split; [|split; [|split; [|split; [|split; [|split]]]]].
  - destruct l as [hd ft hh fh [w h y p ls] ww wh hs fs pc va vc].
    unfold ScrollToBottom, LineDown, set_viewport. lay.
    split; [|f_equal]; vp_solve.
  - destruct l as [hd ft hh fh [w h y p ls] ww wh hs fs pc va vc].
    unfold ScrollToTop, LineUp, set_viewport. lay.
    split; [|f_equal]; vp_solve.
  - intros o Hs.
    destruct (exec_scrolls o l Hs) as (y & -> & [<-|Hr]); lay;
      cbn [Viewport.setYOffsetField Viewport.YOffset]; lia.
  - destruct l as [hd ft hh fh [w h y p ls] ww wh hs fs pc va vc].
    unfold LineDown. lay. lay. vp_solve.
  - destruct l as [hd ft hh fh [w h y p ls] ww wh hs fs pc va vc].
    unfold LineUp. lay. lay. vp_solve.
  - exact Hy.
  - destruct l as [hd ft hh fh [w h y p ls] ww wh hs fs pc va vc].
    lay. intros HH HY.
    unfold LineDown, LineUp, PageDown, PageUp, HalfPageDown, HalfPageUp.
    lay. rewrite (div_floor h HH).
    assert (Hq : 0 <= h / 2) by (apply Z.div_pos; lia).
    revert HY Hq. generalize (h / 2). intros q HY Hq.
    repeat split; vp_solve.
Qed.

(** C8.  [GetViewportYPosition] reads the field [YPosition], which no
    scroll operation writes, while [ViewportAtTop] compares the scroll
    offset: after one [LineDown] on five lines in a viewport of height 2
    the offset is 1 and the viewport is not at the top, and
    [GetViewportYPosition] still returns 0. *)
Theorem GetViewportYPosition_ignores_scrolling :
  (forall (o : Op) (l : Layout),
     scrolls o = true ->
     GetViewportYPosition (exec o l) = GetViewportYPosition l) /\
  Viewport.YOffset (viewport Plain.scrolledOnce) = 1 /\
  ViewportAtTop Plain.scrolledOnce = false /\
  GetViewportYPosition Plain.scrolledOnce = 0.
Proof.
  split; [|repeat split].
  intros o l Hs. unfold GetViewportYPosition.
  destruct (exec_scrolls o l Hs) as (y & -> & _). reflexivity.
Qed.

End Scrolling.

(** ** Concrete runs, on the plain renderer *)

(** The scenarios of a 4-line content: height 10 and Center gives 3 blank
    lines, height 10 and Bottom gives 6, height 3 gives the raw content. *)
Lemma applyAlignment_padding_scenarios :
  applyAlignment (Plain.fourIn10 AlignCenter) =
    set_viewport
      (Viewport.SetContent (Spec.blankLines 3 ++ Plain.fourLines)
         (viewport (Plain.fourIn10 AlignCenter)))
      (Plain.fourIn10 AlignCenter) /\
  applyAlignment (Plain.fourIn10 AlignBottom) =
    set_viewport
      (Viewport.SetContent (Spec.blankLines 6 ++ Plain.fourLines)
         (viewport (Plain.fourIn10 AlignBottom)))
      (Plain.fourIn10 AlignBottom) /\
  applyAlignment (Plain.fourIn3 AlignBottom) =
    set_viewport
      (Viewport.SetContent Plain.fourLines
         (viewport (Plain.fourIn3 AlignBottom)))
      (Plain.fourIn3 AlignBottom).
Proof.
  split; [|split].
  - destruct (applyAlignment_padding (Plain.fourIn10 AlignCenter))
      as [Hlt _]; [vm_compute; discriminate|].
    destruct Hlt as (_ & Hc & _); [vm_compute; reflexivity|].
    exact (Hc eq_refl).
  - destruct (applyAlignment_padding (Plain.fourIn10 AlignBottom))
      as [Hlt _]; [vm_compute; discriminate|].
    destruct Hlt as (_ & _ & Hb); [vm_compute; reflexivity|].
    exact (Hb eq_refl).
  - destruct (applyAlignment_padding (Plain.fourIn3 AlignBottom))
      as [_ Hge]; [vm_compute; discriminate|].
    apply Hge. vm_compute. discriminate.
Defined.





(** The four lines, centred in a viewport of height 10. *)
Lemma sized_content_is_aligned_scenario :
  Viewport.lines
    (viewport
       (Plain.run
          [OpSetVerticalAlignment AlignCenter; OpSetContent Plain.fourLines;
           OpUpdate (tea.WindowSizeMsg 80 12)])) =
  Spec.buffer
    (Spec.aligned
       (verticalAlign
          (Plain.run
             [OpSetVerticalAlignment AlignCenter; OpSetContent Plain.fourLines;
              OpUpdate (tea.WindowSizeMsg 80 12)]))
       (Viewport.Height
          (viewport
             (Plain.run
                [OpSetVerticalAlignment AlignCenter;
                 OpSetContent Plain.fourLines;
                 OpUpdate (tea.WindowSizeMsg 80 12)])))
       (viewportContent
          (Plain.run
             [OpSetVerticalAlignment AlignCenter; OpSetContent Plain.fourLines;
              OpUpdate (tea.WindowSizeMsg 80 12)]))).
Proof.
  assert (Hok : Forall (@resizeOk Plain.renderer)
                  [OpSetVerticalAlignment AlignCenter;
                   OpSetContent Plain.fourLines;
                   OpUpdate (tea.WindowSizeMsg 80 12)]).
  { repeat constructor. cbn. discriminate. }
  assert (Hs : Sized (Plain.run
                  [OpSetVerticalAlignment AlignCenter;
                   OpSetContent Plain.fourLines;
                   OpUpdate (tea.WindowSizeMsg 80 12)])).
  { vm_compute. reflexivity. }
  assert (Hne : viewportContent (Plain.run
                  [OpSetVerticalAlignment AlignCenter;
                   OpSetContent Plain.fourLines;
                   OpUpdate (tea.WindowSizeMsg 80 12)]) <> "").
  { vm_compute. discriminate. }
  exact (sized_content_is_aligned _ Hok Hs Hne).
Defined.

(** With an empty raw content [SetVerticalAlignment] does not realign, and
    after a resize event of width 0 the next resize does not apply the
    content. *)
Lemma sized_content_not_aligned :
  (Sized Plain.emptyRealigned /\
   Viewport.lines (viewport Plain.emptyRealigned) <>
   Spec.buffer
     (Spec.aligned (verticalAlign Plain.emptyRealigned)
        (Viewport.Height (viewport Plain.emptyRealigned))
        (viewportContent Plain.emptyRealigned))) /\
  (Sized Plain.zeroThenWide /\
   viewportContent Plain.zeroThenWide <> "" /\
   Viewport.lines (viewport Plain.zeroThenWide) <>
   Spec.buffer
     (Spec.aligned (verticalAlign Plain.zeroThenWide)
        (Viewport.Height (viewport Plain.zeroThenWide))
        (viewportContent Plain.zeroThenWide))).
Proof.
  repeat split; try (intros H; vm_compute in H; discriminate H).
Qed.

(** Five lines in a viewport of height 2: half a page is 1 line, two half
    pages are one page; in a viewport of height 1 half a page is nothing. *)
Lemma page_scroll_distances_scenario :
  Viewport.YOffset (viewport (HalfPageDown Plain.fiveIn2)) = 1 /\
  Viewport.YOffset (viewport (PageDown Plain.fiveIn2)) = 2 /\
  HalfPageDown (HalfPageDown Plain.fiveIn2) = PageDown Plain.fiveIn2 /\
  HalfPageDown Plain.fiveIn1 = Plain.fiveIn1.
Proof.
  destruct (page_scroll_distances Plain.fiveIn2) as (Hd & He & _).
  destruct Hd as (Hhd & _ & Hpd & _);
    [vm_compute; discriminate
    | vm_compute; split; discriminate |].
  destruct (page_scroll_distances Plain.fiveIn1) as (_ & _ & H1).
  destruct H1 as (Hn & _); [reflexivity|].
  split; [exact Hhd|]. split; [exact Hpd|]. split; [|exact Hn].
  apply He; reflexivity.
Defined.

(** At the bottom of the five lines a half page down moves 0 lines, not 1;
    and with the ten lines scrolled to offset 8 in a viewport since grown to
    height 10, where the maximum valid offset is 0, a half page up moves 8
    lines, not 5, and a half page down moves none. *)
Lemma page_scroll_not_exact :
  (Sized Plain.fiveAtBottom /\
   Viewport.Height (viewport Plain.fiveAtBottom) = 2 /\
   Viewport.YOffset (viewport (HalfPageDown Plain.fiveAtBottom))
   - Viewport.YOffset (viewport Plain.fiveAtBottom) <> 2 / 2) /\
  (Sized Plain.tallAfterBottom /\
   Viewport.Height (viewport Plain.tallAfterBottom) = 10 /\
   Viewport.YOffset (viewport Plain.tallAfterBottom) = 8 /\
   Viewport.maxYOffset (viewport Plain.tallAfterBottom) = 0 /\
   Viewport.YOffset (viewport (HalfPageUp Plain.tallAfterBottom)) = 0 /\
   Viewport.YOffset (viewport Plain.tallAfterBottom)
   - Viewport.YOffset (viewport (HalfPageUp Plain.tallAfterBottom)) <> 10 / 2 /\
   Viewport.YOffset (viewport (HalfPageDown Plain.tallAfterBottom))
   - Viewport.YOffset (viewport Plain.tallAfterBottom) <> 10 / 2).
Proof.
  repeat split; try (intros H; vm_compute in H; discriminate H).
Qed.

(** A page down on five lines in a viewport of height 2 stays in range,
    and a second page down, from offset 2, stops at the maximum offset 3. *)
Lemma scroll_clamps_scenario :
  0 <= Viewport.YOffset (viewport (exec OpPageDown Plain.fiveIn2)) <=
    Z.max (Viewport.YOffset (viewport Plain.fiveIn2))
      (Viewport.maxYOffset (viewport Plain.fiveIn2)) /\
  LineUp (ScrollToTop Plain.fiveIn2) = ScrollToTop Plain.fiveIn2 /\
  Viewport.YOffset (viewport (PageDown Plain.scrolledPage)) =
    Z.min
      (Viewport.YOffset (viewport Plain.scrolledPage)
       + Viewport.Height (viewport Plain.scrolledPage))
      (Viewport.maxYOffset (viewport Plain.scrolledPage)) /\
  Viewport.YOffset (viewport (PageDown Plain.scrolledPage)) = 3.
Proof.
  destruct (@scroll_clamps_at_boundaries Plain.renderer
              [OpSetContent Plain.fiveLines;
               OpUpdate (tea.WindowSizeMsg 80 4)])
    as (_ & (_ & Htop) & Hrange & _).
  destruct (@scroll_clamps_at_boundaries Plain.renderer
              [OpSetContent Plain.fiveLines;
               OpUpdate (tea.WindowSizeMsg 80 4); OpPageDown])
    as (_ & _ & _ & _ & _ & _ & Hexact).
  destruct Hexact as (_ & _ & Hpd & _);
    [vm_compute; discriminate | vm_compute; discriminate |].
  split; [|split; [exact Htop|split; [exact Hpd | reflexivity]]].
  apply (Hrange OpPageDown). reflexivity.
Defined.

(** With the ten lines scrolled to offset 8 in a viewport since grown to
    height 10, the maximum valid offset is 0 and a line down leaves the
    offset at 8: it is not brought to the boundary. *)
Lemma scroll_past_bottom_not_clamped :
  Sized Plain.tallAfterBottom /\
  Viewport.maxYOffset (viewport Plain.tallAfterBottom) = 0 /\
  Viewport.YOffset (viewport (LineDown Plain.tallAfterBottom)) = 8 /\
  Viewport.YOffset (viewport (LineDown Plain.tallAfterBottom)) <>
    Viewport.maxYOffset (viewport (LineDown Plain.tallAfterBottom)).
Proof.
  repeat split; try (intros H; vm_compute in H; discriminate H).
Qed.

(** A page down does not change what [GetViewportYPosition] returns. *)
Lemma GetViewportYPosition_scenario :
  GetViewportYPosition (exec OpPageDown Plain.fiveIn2) =
  GetViewportYPosition Plain.fiveIn2.
Proof.
  destruct (@GetViewportYPosition_ignores_scrolling Plain.renderer)
    as (H & _).
  apply H. reflexivity.
Defined.

(** A fresh Layout renders the placeholder; a sized one the three blocks. *)
Lemma View_scenario :
  View Plain.New = "Initializing..." /\
  View (Plain.run [OpSetHeader "Title"; OpSetContent "body"]) =
    "Initializing..." /\
  View (Plain.fourIn3 AlignTop) =
    @lipgloss.JoinVertical Plain.renderer lipgloss.Left
      [@lipgloss.Render Plain.renderer (headerStyle (Plain.fourIn3 AlignTop))
         (header (Plain.fourIn3 AlignTop));
       @lipgloss.ViewportView Plain.renderer
         (viewport (Plain.fourIn3 AlignTop));
       @lipgloss.Render Plain.renderer (footerStyle (Plain.fourIn3 AlignTop))
         (footer (Plain.fourIn3 AlignTop))].
Proof.
  destruct (@View_spec Plain.renderer) as (H0 & Hpre & Hsized).
  split; [apply H0; reflexivity|]. split.
  - apply (Hpre [OpSetHeader "Title"; OpSetContent "body"]). reflexivity.
  - apply Hsized. vm_compute. discriminate.
Defined.

(** An empty content and Bottom mode before a first resize to 80x24. *)
Lemma first_resize_skips_empty_pending_scenario :
  viewport
    (fst (Update (tea.WindowSizeMsg 80 24)
            (SetVerticalAlignment AlignBottom (SetContent "" Plain.New)))) =
    Viewport.New 80 22 /\
  Viewport.lines
    (viewport
       (fst (Update (tea.WindowSizeMsg 80 24)
               (SetVerticalAlignment AlignBottom (SetContent "" Plain.New)))))
    = [].
Proof.
  destruct (first_resize_skips_empty_pending Plain.New AlignBottom 80 24)
    as (_ & _ & Hv & Hl & _); [reflexivity|].
  split; [exact Hv | exact Hl].
Defined.

(** * Further properties of the Layout *)

(** ** Counting lines *)

Lemma Count_append (a b : string) : Go.Count (a ++ b) = Go.Count a + Go.Count b.
Proof.
  induction a as [|c a IH]; cbn [append Go.Count]; [reflexivity|].
  rewrite IH. lia.
Qed.

Lemma Count_blankLines (n : Z) : Go.Count (Spec.blankLines n) = Z.max 0 n.
Proof.
  unfold Spec.blankLines.
  rewrite <- (Z2Nat.id (Z.max 0 n)) by lia.
  replace (Z.to_nat (Z.max 0 n)) with (Z.to_nat n) by lia.
  induction (Z.to_nat n) as [|k IH]; [reflexivity|].
  cbn [repeat string_of_list_ascii Go.Count]. rewrite IH.
  rewrite Ascii.eqb_refl. lia.
Qed.

(** Dropping the carriage return of a ["\r\n"] keeps every line break. *)
Lemma Count_normalize (s : string) :
  Go.Count (Viewport.normalize s) = Go.Count s.
Proof.
  induction s as [|c s IH]; [reflexivity|].
  cbn [Viewport.normalize]. destruct s as [|c' s']; [reflexivity|].
  destruct (Ascii.eqb c Go.CR && Ascii.eqb c' Go.LF)%bool eqn:E.
  - rewrite IH. apply andb_true_iff in E as [Ec _].
    apply Ascii.eqb_eq in Ec. subst c.
    change (Go.Count (String Go.CR (String c' s')))
      with (0 + Go.Count (String c' s')).
    lia.
  - change (Go.Count (String c (Viewport.normalize (String c' s'))))
      with ((if Ascii.eqb c Go.LF then 1 else 0)
            + Go.Count (Viewport.normalize (String c' s'))).
    rewrite IH. reflexivity.
Qed.

(** Splitting at the line breaks gives one line more than there are line
    breaks. *)
Lemma split_Count (s : string) :
  Z.of_nat (List.length (Viewport.split s)) = Go.Count s + 1.
Proof.
  induction s as [|c s IH]; [reflexivity|].
  cbn [Viewport.split Go.Count].
  destruct (Ascii.eqb c Go.LF).
  - cbn [List.length]. lia.
  - pose proof (split_length s) as Hl.
    destruct (Viewport.split s) as [|x xs]; cbn [List.length] in *; lia.
Qed.

Lemma buffer_length (s : string) :
  Z.of_nat (List.length (Spec.buffer s)) = Spec.lineCount s.
Proof.
  unfold Spec.buffer. now rewrite split_Count, Count_normalize, Count_lineCount.
Qed.

Lemma lineCount_blankLines (n : Z) (C : string) :
  Spec.lineCount (Spec.blankLines n ++ C) = Z.max 0 n + Spec.lineCount C.
Proof.
  rewrite <- !Count_lineCount, Count_append, Count_blankLines. lia.
Qed.

Section MoreAlignment.

Context {R : lipgloss.Renderer}.

Lemma set_viewportContent_same (l : Layout) :
  set_viewportContent (viewportContent l) l = l.
Proof. now destruct l. Qed.

(** The fields the alignment neither reads nor writes. *)
Lemma applyAlignment_bands (l : Layout) :
  header (applyAlignment l) = header l /\
  footer (applyAlignment l) = footer l /\
  headerStyle (applyAlignment l) = headerStyle l /\
  footerStyle (applyAlignment l) = footerStyle l /\
  windowWidth (applyAlignment l) = windowWidth l.
Proof.
  unfold applyAlignment.
  destruct (Viewport.Width (viewport l) =? 0); [repeat split|].
  destruct (Go.Count (viewportContent l) + 1 <? Viewport.Height (viewport l));
    [destruct (verticalAlign l)|]; lay; repeat split.
Qed.

Lemma applyAlignment_twice (l : Layout) :
  applyAlignment (applyAlignment l) = applyAlignment l.
Proof.
  destruct (applyAlignment_keeps l) as (_ & Hraw & Hmode & _).
  destruct (applyAlignment_size l) as (HW & HH & _).
  destruct (Z.eqb_spec (Viewport.Width (viewport l)) 0) as [Hw|Hw].
  - now rewrite !(applyAlignment_unsized l Hw).
  - rewrite (applyAlignment_aligned (applyAlignment l))
      by (now rewrite HW).
    rewrite Hraw, Hmode, HH.
    rewrite (applyAlignment_aligned l Hw). lay.
    now rewrite SetContent_idem.
Qed.

(** Setting the same content twice is setting it once.  While the
    Layout is unsized only the last of two contents set in a row counts; on
    a sized Layout the buffer and the raw content are those of the last
    one. *)
Theorem SetContent_last_wins (C C' : string) (l : Layout) :
  SetContent C (SetContent C l) = SetContent C l /\
  (Viewport.Width (viewport l) = 0 ->
   SetContent C' (SetContent C l) = SetContent C' l) /\
  Viewport.lines (viewport (SetContent C' (SetContent C l))) =
    Viewport.lines (viewport (SetContent C' l)) /\
  viewportContent (SetContent C' (SetContent C l)) = C'.
Proof.
  assert (Hun : forall D, Viewport.Width (viewport l) = 0 ->
            SetContent D (SetContent C l) = SetContent D l).
  { intros D Hw. rewrite (SetContent_unsized C l Hw).
    rewrite !SetContent_unsized by (lay; exact Hw). reflexivity. }
  destruct (Z.eqb_spec (Viewport.Width (viewport l)) 0) as [Hw|Hw].
  - split; [|split; [|split]].
    + rewrite (Hun C Hw). reflexivity.
    + intros _. exact (Hun C' Hw).
    + now rewrite (Hun C' Hw).
    + rewrite (Hun C' Hw), (SetContent_unsized C' l Hw). reflexivity.
  - assert (Hw1 : Viewport.Width (viewport (SetContent C l)) <> 0).
    { rewrite (SetContent_sized C l Hw).
      now destruct (applyAlignment_size (set_viewportContent C l)) as (-> & _). }
    split; [|split; [|split]].
    + rewrite (SetContent_sized C (SetContent C l) Hw1).
      rewrite (SetContent_sized C l Hw).
      replace (set_viewportContent C (applyAlignment (set_viewportContent C l)))
        with (applyAlignment (set_viewportContent C l)).
      * apply applyAlignment_twice.
      * destruct (applyAlignment_keeps (set_viewportContent C l))
          as (_ & Hraw & _). lay.
        rewrite <- Hraw at 2. now rewrite set_viewportContent_same.
    + intros H0. contradiction.
    + rewrite (SetContent_sized C' (SetContent C l) Hw1).
      rewrite (SetContent_sized C' l Hw).
      rewrite !applyAlignment_buffer. lay.
      apply Z.eqb_neq in Hw, Hw1. rewrite Hw, Hw1.
      rewrite (SetContent_sized C l) by (now apply Z.eqb_neq).
      destruct (applyAlignment_keeps (set_viewportContent C l))
        as (_ & _ & -> & _).
      destruct (applyAlignment_size (set_viewportContent C l))
        as (_ & -> & _).
      reflexivity.
    + rewrite (SetContent_sized C' (SetContent C l) Hw1).
      now destruct (applyAlignment_keeps
                      (set_viewportContent C' (SetContent C l)))
        as (_ & -> & _).
Qed.

(** On an initialised Viewport the alignment never adds scroll range:
    the buffer has the raw content's line count from Top mode or when the
    content does not fit, exactly the Viewport's height from Bottom mode,
    and the line count plus half the free lines from Center mode; in every
    mode the maximum offset is what the raw content alone would give. *)
Theorem applyAlignment_line_count (l : Layout) :
  Viewport.Width (viewport l) <> 0 ->
  let C := viewportContent l in
  let H := Viewport.Height (viewport l) in
  let n := Viewport.len (viewport (applyAlignment l)) in
  (Spec.lineCount C < H ->
     (verticalAlign l = AlignTop -> n = Spec.lineCount C) /\
     (verticalAlign l = AlignCenter ->
        n = Spec.lineCount C + (H - Spec.lineCount C) / 2) /\
     (verticalAlign l = AlignBottom -> n = H)) /\
  (H <= Spec.lineCount C -> n = Spec.lineCount C) /\
  Viewport.maxYOffset (viewport (applyAlignment l)) =
    Z.max 0 (Spec.lineCount C - H).
Proof.
  intros Hw C H n.
  assert (Hn : n = Spec.lineCount (Spec.aligned (verticalAlign l) H C)).
  { subst n. unfold Viewport.len. rewrite applyAlignment_buffer.
    apply Z.eqb_neq in Hw. rewrite Hw. apply buffer_length. }
  assert (Hpos : 1 <= Spec.lineCount C).
  { unfold Spec.lineCount. lia. }
  assert (Hlt : Spec.lineCount C < H ->
     (verticalAlign l = AlignTop -> n = Spec.lineCount C) /\
     (verticalAlign l = AlignCenter ->
        n = Spec.lineCount C + (H - Spec.lineCount C) / 2) /\
     (verticalAlign l = AlignBottom -> n = H)).
  { intros Hlt. rewrite Hn. unfold Spec.aligned.
    apply Z.ltb_lt in Hlt. rewrite Hlt. apply Z.ltb_lt in Hlt.
    assert (0 <= (H - Spec.lineCount C) / 2) by (apply Z.div_pos; lia).
    repeat split; intros ->; rewrite ?lineCount_blankLines; lia. }
  assert (Hge : H <= Spec.lineCount C -> n = Spec.lineCount C).
  { intros Hge. rewrite Hn. unfold Spec.aligned.
    apply Z.ltb_ge in Hge. now rewrite Hge. }
  split; [exact Hlt|]. split; [exact Hge|].
  unfold Viewport.maxYOffset. fold n.
  destruct (applyAlignment_size l) as (_ & -> & _). fold H.
  destruct (Z.lt_ge_cases (Spec.lineCount C) H) as [Hc|Hc].
  - destruct (Hlt Hc) as (Ht & Hce & Hb).
    assert ((H - Spec.lineCount C) / 2 <= H - Spec.lineCount C).
    { apply Z.div_le_upper_bound; lia. }
    destruct (verticalAlign l);
      [rewrite (Ht eq_refl) | rewrite (Hce eq_refl) | rewrite (Hb eq_refl)];
      lia.
  - rewrite (Hge Hc). reflexivity.
Qed.

End MoreAlignment.

(** ** Resize events *)

Section MoreResize.

Context {R : lipgloss.Renderer}.

(** A resize event on a sized Layout, of a width other than 0, aligns
    whatever the raw content is, the empty content included: afterwards the
    buffer is the alignment function of raw content, mode and the new
    height.  Raw content and mode are kept. *)
Theorem later_resize_realigns (w h : Z) (l : Layout) :
  Viewport.Width (viewport l) <> 0 -> w <> 0 ->
  let l' := fst (Update (tea.WindowSizeMsg w h) l) in
  Spec.Aligned l' /\
  viewportContent l' = viewportContent l /\
  verticalAlign l' = verticalAlign l /\
  Viewport.Height (viewport l') =
    Go.sub (Go.sub h (headerHeight l)) (footerHeight l).
Proof.
  intros Hw Hwne. cbv zeta.
  rewrite (Update_later_resize w h l Hw). cbn [fst].
  match goal with
  | |- context [applyAlignment ?x] => set (l0 := x)
  end.
  assert (Hw0 : Viewport.Width (viewport l0) <> 0) by (subst l0; lay; exact Hwne).
  destruct (applyAlignment_keeps l0) as (_ & Hraw & Hmode & _).
  destruct (applyAlignment_size l0) as (_ & HH & _).
  unfold Spec.Aligned. rewrite Hraw, Hmode, HH, applyAlignment_buffer.
  apply Z.eqb_neq in Hw0. rewrite Hw0.
  subst l0. lay. repeat split.
Qed.

(** After the alignment of an initialised Viewport, the Viewport is the
    result of setting the aligned content. *)
Lemma applyAlignment_settled (l : Layout) :
  Viewport.Width (viewport l) <> 0 ->
  exists v0,
    viewport (applyAlignment l) =
    Viewport.SetContent
      (Spec.aligned (verticalAlign (applyAlignment l))
         (Viewport.Height (viewport (applyAlignment l)))
         (viewportContent (applyAlignment l))) v0.
Proof.
  intros Hw. exists (viewport l).
  destruct (applyAlignment_keeps l) as (_ & -> & -> & _).
  destruct (applyAlignment_size l) as (_ & -> & _).
  now rewrite (applyAlignment_aligned l Hw).
Qed.

(** A resize event to the size the Layout already has, on a Viewport that
    holds the aligned content. *)
Lemma resize_settled (w h : Z) (l : Layout) (v0 : Viewport.Model) :
  w <> 0 ->
  Viewport.Width (viewport l) = w ->
  Viewport.Height (viewport l) =
    Go.sub (Go.sub h (headerHeight l)) (footerHeight l) ->
  windowWidth l = w -> windowHeight l = h ->
  viewport l =
    Viewport.SetContent
      (Spec.aligned (verticalAlign l) (Viewport.Height (viewport l))
         (viewportContent l)) v0 ->
  viewport (fst (Update (tea.WindowSizeMsg w h) l)) = viewport l /\
  viewportContent (fst (Update (tea.WindowSizeMsg w h) l)) = viewportContent l /\
  pendingContent (fst (Update (tea.WindowSizeMsg w h) l)) = pendingContent l /\
  verticalAlign (fst (Update (tea.WindowSizeMsg w h) l)) = verticalAlign l /\
  windowWidth (fst (Update (tea.WindowSizeMsg w h) l)) = windowWidth l /\
  windowHeight (fst (Update (tea.WindowSizeMsg w h) l)) = windowHeight l.
Proof.
  intros Hwne HW HH Hww Hwh Hv.
  rewrite Update_later_resize by (rewrite HW; exact Hwne). cbn [fst].
  rewrite <- HH, <- HW.
  match goal with
  | |- context [applyAlignment ?x] =>
      destruct (applyAlignment_keeps x) as (-> & -> & -> & _ & _ & ->);
      destruct (applyAlignment_bands x) as (_ & _ & _ & _ & ->);
      rewrite (applyAlignment_aligned x) by (lay; rewrite HW; exact Hwne)
  end.
  lay. split; [|rewrite Hww, HW, Hwh; repeat split].
  replace (Viewport.setHeight (Viewport.Height (viewport l))
             (Viewport.setWidth (Viewport.Width (viewport l)) (viewport l)))
    with (viewport l) by (now destruct (viewport l)).
  revert Hv.
  generalize (Spec.aligned (verticalAlign l) (Viewport.Height (viewport l))
                (viewportContent l)).
  intros A ->. apply SetContent_idem.
Qed.

(** The state a resize event of a width other than 0 leaves, when the
    Layout was sized or had content pending. *)
Lemma resize_leaves_settled (w h : Z) (l : Layout) :
  Viewport.Width (viewport l) <> 0 \/ pendingContent l <> "" -> w <> 0 ->
  exists v0,
    viewport (fst (Update (tea.WindowSizeMsg w h) l)) =
    Viewport.SetContent
      (Spec.aligned (verticalAlign (fst (Update (tea.WindowSizeMsg w h) l)))
         (Viewport.Height (viewport (fst (Update (tea.WindowSizeMsg w h) l))))
         (viewportContent (fst (Update (tea.WindowSizeMsg w h) l)))) v0.
Proof.
  intros Hl Hwne.
  destruct (Z.eqb_spec (Viewport.Width (viewport l)) 0) as [Hw|Hw].
  - destruct Hl as [Hl|Hl]; [contradiction|].
    rewrite (Update_first_resize w h l Hw). cbn [fst].
    apply String.eqb_neq in Hl. rewrite Hl.
    apply applyAlignment_settled. lay. exact Hwne.
  - rewrite (Update_later_resize w h l Hw). cbn [fst].
    apply applyAlignment_settled. lay. exact Hwne.
Qed.

(** A resize event repeated with the same size changes nothing in the
    Viewport, the contents, the mode or the stored window size, provided the
    Layout was sized or had content pending, and the width is not 0. *)
Theorem resize_twice (w h : Z) (l : Layout) :
  Viewport.Width (viewport l) <> 0 \/ pendingContent l <> "" -> w <> 0 ->
  let l1 := fst (Update (tea.WindowSizeMsg w h) l) in
  let l2 := fst (Update (tea.WindowSizeMsg w h) l1) in
  viewport l2 = viewport l1 /\
  viewportContent l2 = viewportContent l1 /\
  pendingContent l2 = pendingContent l1 /\
  verticalAlign l2 = verticalAlign l1 /\
  windowWidth l2 = windowWidth l1 /\
  windowHeight l2 = windowHeight l1.
Proof.
  intros Hl Hwne. cbv zeta.
  destruct (resize_leaves_settled w h l Hl Hwne) as (v0 & Hv).
  pose proof (Update_resize_size w h l) as Hsz. cbv zeta in Hsz.
  destruct Hsz as (HW & HH & Hww & Hwh & Hhh & Hfh).
  revert Hv HW HH Hww Hwh Hhh Hfh.
  generalize (fst (Update (tea.WindowSizeMsg w h) l)).
  intros l1 Hv HW HH Hww Hwh Hhh Hfh.
  apply (resize_settled w h l1 v0); try assumption.
  now rewrite Hhh, Hfh.
Qed.

(** What [View] shows after a resize event is decided by the event's
    height alone: a height of 0 gives the placeholder, also on a sized
    Layout whose Viewport holds content; any other height gives header,
    Viewport and footer, the two bands styled at the event's width. *)
Theorem View_after_resize (w h : Z) (l : Layout) :
  let l' := fst (Update (tea.WindowSizeMsg w h) l) in
  (h = 0 -> View l' = "Initializing...") /\
  (h <> 0 ->
   View l' =
   lipgloss.JoinVertical lipgloss.Left
     [lipgloss.Render (lipgloss.Width w (headerStyle l)) (header l);
      lipgloss.ViewportView (viewport l');
      lipgloss.Render (lipgloss.Width w (footerStyle l)) (footer l)]).
Proof.
  cbv zeta.
  destruct (Update_resize_size w h l) as (_ & _ & _ & Hwh & _).
  assert (Hb : header (fst (Update (tea.WindowSizeMsg w h) l)) = header l /\
               footer (fst (Update (tea.WindowSizeMsg w h) l)) = footer l /\
               headerStyle (fst (Update (tea.WindowSizeMsg w h) l)) =
                 lipgloss.Width w (headerStyle l) /\
               footerStyle (fst (Update (tea.WindowSizeMsg w h) l)) =
                 lipgloss.Width w (footerStyle l)).
  { destruct (Z.eqb_spec (Viewport.Width (viewport l)) 0) as [Hw|Hw].
    - rewrite (Update_first_resize w h l Hw). cbn [fst].
      destruct (pendingContent l =? "")%string; [lay; repeat split|].
      match goal with
      | |- context [applyAlignment ?x] =>
          destruct (applyAlignment_bands x) as (-> & -> & -> & -> & _)
      end.
      lay. repeat split.
    - rewrite (Update_later_resize w h l Hw). cbn [fst].
      match goal with
      | |- context [applyAlignment ?x] =>
          destruct (applyAlignment_bands x) as (-> & -> & -> & -> & _)
      end.
      lay. repeat split. }
  destruct Hb as (Hh & Hf & Hhs & Hfs).
  unfold View. rewrite Hwh, Hh, Hf, Hhs, Hfs. split.
  - intros ->. reflexivity.
  - intros Hne. apply Z.eqb_neq in Hne. now rewrite Hne.
Qed.

(** A resize event of width 0 on a sized Layout with nothing pending
    makes the Layout unsized again without touching the buffer, and the
    resize event after it constructs a new, empty Viewport: the raw content
    is kept in the Layout and shown no more. *)
Theorem zero_width_resize_drops_buffer (h w' h' : Z) (l : Layout) :
  Viewport.Width (viewport l) <> 0 -> pendingContent l = "" ->
  let l1 := fst (Update (tea.WindowSizeMsg 0 h) l) in
  let l2 := fst (Update (tea.WindowSizeMsg w' h') l1) in
  Viewport.Width (viewport l1) = 0 /\
  Viewport.lines (viewport l1) = Viewport.lines (viewport l) /\
  viewport l2 =
    Viewport.New w' (Go.sub (Go.sub h' (headerHeight l)) (footerHeight l)) /\
  Viewport.lines (viewport l2) = [] /\
  viewportContent l2 = viewportContent l.
Proof.
  intros Hw Hp. cbv zeta.
  rewrite (Update_later_resize 0 h l Hw). cbn [fst].
  rewrite applyAlignment_unsized by (lay; reflexivity).
  rewrite Update_first_resize by (lay; reflexivity).
  cbn [fst]. lay. rewrite Hp. cbn [String.eqb]. lay.
  repeat split.
Qed.

End MoreResize.

(** ** Invariants of the state machine *)

Section MoreInvariants.

Context {R : lipgloss.Renderer}.

Lemma run_width (ops : list Op) (l : Layout) :
  Forall resizeOk ops ->
  Viewport.Width (viewport (run ops l)) = 0 <->
  Viewport.Width (viewport l) = 0 /\
  forallb (fun o => negb (isResize o)) ops = true.
Proof.
  intros Hops. revert l.
  induction Hops as [|o ops Ho _ IH]; intros l.
  - cbn. tauto.
  - change (run (o :: ops) l) with (run ops (exec o l)).
    rewrite IH, exec_width. cbn [forallb].
    destruct o as [| | | | | | | |[w h|k|t]| | | | | | | | |];
      cbn [isResize negb andb resizeOk] in *; try tauto.
    split; [intros [Hw _]; contradiction | intros [_ Hf]; discriminate].
Qed.

(** In every state reached from [New] by operations whose resize
    events carry a width other than 0: the Layout is unsized exactly when
    no resize event has arrived; while it is unsized the pending content is
    the raw content; once it is sized the pending content is empty. *)
Theorem pending_content_invariant (ops : list Op) :
  Forall resizeOk ops ->
  let l := run ops New in
  (Viewport.Width (viewport l) = 0 <->
   forallb (fun o => negb (isResize o)) ops = true) /\
  (Viewport.Width (viewport l) = 0 -> pendingContent l = viewportContent l) /\
  (Viewport.Width (viewport l) <> 0 -> pendingContent l = "").
Proof.
  intros Hops. cbv zeta. split.
  - rewrite (run_width ops New Hops). cbn. tauto.
  - assert (H0 : (Viewport.Width (viewport New) = 0 ->
                  pendingContent New = viewportContent New) /\
                 (Viewport.Width (viewport New) <> 0 ->
                  pendingContent New = "")).
    { cbn. split; [reflexivity | intros H; contradiction]. }
    revert H0. generalize New.
    induction Hops as [|o ops Ho _ IH]; intros l Hinv; [exact Hinv|].
    change (run (o :: ops) l) with (run ops (exec o l)).
    apply IH. now apply exec_pending.
Qed.

(** [SetViewportYPosition] stores the row it is given, whatever it is,
    and moves nothing: scroll offset and buffer stay.  The stored row
    survives every operation but two: another [SetViewportYPosition], and a
    resize event on an unsized Layout, which constructs a new Viewport at
    row 0. *)
Theorem SetViewportYPosition_persists (y : Z) (l : Layout) :
  GetViewportYPosition (SetViewportYPosition y l) = y /\
  Viewport.YOffset (viewport (SetViewportYPosition y l)) =
    Viewport.YOffset (viewport l) /\
  Viewport.lines (viewport (SetViewportYPosition y l)) =
    Viewport.lines (viewport l) /\
  forall o : Op,
    GetViewportYPosition (exec o l) =
    match o with
    | OpSetViewportYPosition y' => y'
    | OpUpdate (tea.WindowSizeMsg _ _) =>
        if Viewport.Width (viewport l) =? 0 then 0
        else GetViewportYPosition l
    | _ => GetViewportYPosition l
    end.
Proof.
  do 3 (split; [reflexivity|]).
  intros o. unfold GetViewportYPosition.
  destruct (scrolls o) eqn:Hs.
  { destruct (exec_scrolls o l Hs) as (y0 & -> & _).
    destruct o as [| | | | | | | |[w h|k|t]| | | | | | | | |];
      try discriminate; reflexivity. }
  destruct o as [| | | | | |c|a|[w h|k|t]|y'| | | | | | | |];
    try discriminate; cbn [exec]; try reflexivity.
  - unfold SetContent. lay.
    destruct (_ =? 0); [reflexivity|].
    now destruct (applyAlignment_size (set_viewportContent c l))
      as (_ & _ & ->).
  - unfold SetVerticalAlignment. lay.
    destruct (_ && _)%bool; [|reflexivity].
    now destruct (applyAlignment_size (set_verticalAlign a l))
      as (_ & _ & ->).
  - destruct (Z.eqb_spec (Viewport.Width (viewport l)) 0) as [Hw|Hw].
    + rewrite (Update_first_resize w h l Hw). cbn [fst].
      destruct (pendingContent l =? "")%string; [reflexivity|].
      match goal with
      | |- context [applyAlignment ?x] =>
          destruct (applyAlignment_size x) as (_ & _ & ->)
      end.
      reflexivity.
    + rewrite (Update_later_resize w h l Hw). cbn [fst].
      match goal with
      | |- context [applyAlignment ?x] =>
          destruct (applyAlignment_size x) as (_ & _ & ->)
      end.
      reflexivity.
Qed.

(** The Layout's [Update] returns the quit command for the keys ["q"] and
    ["ctrl+c"], and no command for any other message. *)
Lemma Update_cmd_cases (msg : tea.Msg) (l : Layout) :
  (exists k, msg = tea.KeyMsg k /\
     ((k =? "ctrl+c")%string || (k =? "q")%string)%bool = true /\
     Update msg l = (l, tea.Quit)) \/
  (snd (Update msg l) = tea.NoCmd /\
   match msg with
   | tea.KeyMsg k => ((k =? "ctrl+c")%string || (k =? "q")%string)%bool = false
   | _ => True
   end).
Proof.
  destruct msg as [w h|k|t].
  - right. split; [|exact I].
    destruct (Z.eqb_spec (Viewport.Width (viewport l)) 0) as [Hw|Hw].
    + now rewrite (Update_first_resize w h l Hw).
    + now rewrite (Update_later_resize w h l Hw).
  - unfold Update.
    destruct ((k =? "ctrl+c")%string || (k =? "q")%string)%bool eqn:E.
    + left. exists k. auto.
    + right. rewrite Update_cmd. auto.
  - right. unfold Update. rewrite Update_cmd. auto.
Qed.

(** The Layout asks the event loop to quit exactly on the keys ["q"]
    and ["ctrl+c"], and leaves its state as it is when it does. *)
Theorem Update_quits_on_q_only (msg : tea.Msg) (l : Layout) :
  (snd (Update msg l) = tea.Quit <->
   msg = tea.KeyMsg "q" \/ msg = tea.KeyMsg "ctrl+c") /\
  (snd (Update msg l) = tea.Quit -> fst (Update msg l) = l).
Proof.
  destruct (Update_cmd_cases msg l) as [(k & -> & Hk & E)|(Hc & Hm)].
  - rewrite E. cbn [fst snd]. split; [|reflexivity].
    split; [intros _|reflexivity].
    apply orb_true_iff in Hk as [Hk|Hk]; apply String.eqb_eq in Hk; subst k;
      auto.
  - rewrite Hc. split; [|discriminate].
    split; [discriminate|].
    intros [->| ->]; cbn in Hm; discriminate.
Qed.

(** No message changes the footer text. *)
Lemma Update_footer (msg : tea.Msg) (l : Layout) :
  footer (fst (Update msg l)) = footer l.
Proof.
  destruct msg as [w h|k|t].
  - destruct (Z.eqb_spec (Viewport.Width (viewport l)) 0) as [Hw|Hw].
    + rewrite (Update_first_resize w h l Hw). cbn [fst].
      destruct (pendingContent l =? "")%string; [reflexivity|].
      match goal with
      | |- context [applyAlignment ?x] =>
          destruct (applyAlignment_bands x) as (_ & -> & _)
      end.
      reflexivity.
    + rewrite (Update_later_resize w h l Hw). cbn [fst].
      match goal with
      | |- context [applyAlignment ?x] =>
          destruct (applyAlignment_bands x) as (_ & -> & _)
      end.
      reflexivity.
  - destruct (exec_scrolls (OpUpdate (tea.KeyMsg k)) l eq_refl)
      as (y & E & _).
    cbn [exec] in E. now rewrite E.
  - destruct (exec_scrolls (OpUpdate (tea.OtherMsg t)) l eq_refl)
      as (y & E & _).
    cbn [exec] in E. now rewrite E.
Qed.

End MoreInvariants.

(** ** The demo application *)

Section DemoApp.

Context {R : lipgloss.Renderer}.

(** What a key does in the application: it quits, or forwards one scroll
    operation to the Layout, or toggles one of the two flags. *)
Lemma app_key_cases (key : string) (t : app.testApp) :
  (((key =? "q") || (key =? "ctrl+c"))%string%bool = true /\
   app.Update (tea.KeyMsg key) t = (t, tea.Quit)) \/
  (exists o, scrolls o = true /\
     fst (app.Update (tea.KeyMsg key) t) =
       app.set_layout (exec o (app.layout t)) t /\
     snd (app.Update (tea.KeyMsg key) t) = tea.NoCmd /\
     ((key =? "q") || (key =? "ctrl+c"))%string%bool = false) \/
  (key = "h" /\
   app.Update (tea.KeyMsg key) t =
     (app.updateFooter
        (if negb (app.showHelp t)
         then app.set_showPosInfo false
                (app.set_showHelp (negb (app.showHelp t)) t)
         else app.set_showHelp (negb (app.showHelp t)) t), tea.NoCmd)) \/
  (key = "p" /\
   app.Update (tea.KeyMsg key) t =
     (app.updateFooter
        (if negb (app.showPosInfo t)
         then app.set_showHelp false
                (app.set_showPosInfo (negb (app.showPosInfo t)) t)
         else app.set_showPosInfo (negb (app.showPosInfo t)) t), tea.NoCmd)).
Proof.
  unfold app.Update.
  destruct ((key =? "q") || (key =? "ctrl+c"))%string%bool eqn:Eq;
    [left; auto|].
  destruct ((key =? "j") || (key =? "down"))%string%bool;
    [right; left; exists OpLineDown; cbn; auto|].
  destruct ((key =? "k") || (key =? "up"))%string%bool;
    [right; left; exists OpLineUp; cbn; auto|].
  destruct (key =? "u")%string;
    [right; left; exists OpHalfPageUp; cbn; auto|].
  destruct (key =? "d")%string;
    [right; left; exists OpHalfPageDown; cbn; auto|].
  destruct (key =? "page_up")%string;
    [right; left; exists OpPageUp; cbn; auto|].
  destruct (key =? "page_down")%string;
    [right; left; exists OpPageDown; cbn; auto|].
  destruct ((key =? "home") || (key =? "t"))%string%bool;
    [right; left; exists OpScrollToTop; cbn; auto|].
  destruct ((key =? "end") || (key =? "b"))%string%bool;
    [right; left; exists OpScrollToBottom; cbn; auto|].
  destruct (key =? "h")%string eqn:Eh.
  { right; right; left. apply String.eqb_eq in Eh. split; [exact Eh|].
    cbn [app.showHelp app.set_showHelp]. reflexivity. }
  destruct (key =? "p")%string eqn:Ep.
  { right; right; right. apply String.eqb_eq in Ep. split; [exact Ep|].
    cbn [app.showPosInfo app.set_showPosInfo].
    destruct (negb (app.showPosInfo t)); reflexivity. }
  right; left. exists (OpUpdate (tea.KeyMsg key)).
  split; [reflexivity|].
  destruct (Update (tea.KeyMsg key) (app.layout t)) as [model cmd] eqn:E.
  cbn [fst snd exec]. rewrite E. cbn [fst].
  split; [reflexivity|]. split; [|reflexivity].
  destruct (Update_cmd_cases (tea.KeyMsg key) (app.layout t))
    as [(k & Hk & Hq & _)|(Hc & _)].
  - injection Hk as <-. rewrite orb_comm in Hq. congruence.
  - rewrite E in Hc. exact Hc.
Qed.

(** Every message other than the keys ["h"] and ["p"] keeps the two flags
    and the footer text. *)
Lemma app_Update_keeps (msg : tea.Msg) (t : app.testApp) :
  msg <> tea.KeyMsg "h" -> msg <> tea.KeyMsg "p" ->
  app.showHelp (fst (app.Update msg t)) = app.showHelp t /\
  app.showPosInfo (fst (app.Update msg t)) = app.showPosInfo t /\
  footer (app.layout (fst (app.Update msg t))) = footer (app.layout t).
Proof.
  intros Hh Hp.
  assert (Hto : forall m,
    let r := (let (model, cmd) := Update m (app.layout t) in
              (app.set_layout model t, cmd)) in
    app.showHelp (fst r) = app.showHelp t /\
    app.showPosInfo (fst r) = app.showPosInfo t /\
    footer (app.layout (fst r)) = footer (app.layout t)).
  { intros m. cbv zeta.
    pose proof (Update_footer m (app.layout t)) as Hf.
    destruct (Update m (app.layout t)) as [model cmd].
    cbn [fst] in *. cbn. auto. }
  destruct msg as [w h|key|tag]; [apply Hto| |apply Hto].
  destruct (app_key_cases key t)
    as [(_ & ->)|[(o & Hs & -> & _)|[(-> & _)|(-> & _)]]];
    [auto| |contradiction|contradiction].
  destruct (exec_scrolls o (app.layout t) Hs) as (y & -> & _).
  cbn. auto.
Qed.

(** The two invariants of the application state. *)
Lemma app_Update_inv (msg : tea.Msg) (t : app.testApp) :
  ((app.showHelp t && app.showPosInfo t)%bool = false ->
   (app.showHelp (fst (app.Update msg t)) &&
    app.showPosInfo (fst (app.Update msg t)))%bool = false) /\
  (footer (app.layout t) = app.footerFor t ->
   footer (app.layout (fst (app.Update msg t))) =
   app.footerFor (fst (app.Update msg t))).
Proof.
  assert (Hkeep :
    msg <> tea.KeyMsg "h" -> msg <> tea.KeyMsg "p" ->
    ((app.showHelp t && app.showPosInfo t)%bool = false ->
     (app.showHelp (fst (app.Update msg t)) &&
      app.showPosInfo (fst (app.Update msg t)))%bool = false) /\
    (footer (app.layout t) = app.footerFor t ->
     footer (app.layout (fst (app.Update msg t))) =
     app.footerFor (fst (app.Update msg t)))).
  { intros Hh Hp.
    destruct (app_Update_keeps msg t Hh Hp) as (Eh & Ep & Ef).
    unfold app.footerFor. rewrite Eh, Ep, Ef. auto. }
  destruct msg as [w h|key|tag]; try (apply Hkeep; discriminate).
  destruct (app_key_cases key t)
    as [(Hq & _)|[(o & Hs & E & _)|[(-> & E)|(-> & E)]]].
  - apply Hkeep; intros H; injection H as ->; discriminate.
  - destruct (string_dec key "h") as [->|Hh];
      [|destruct (string_dec key "p") as [->|Hp];
        [|apply Hkeep; congruence]].
    + rewrite E. destruct (exec_scrolls o (app.layout t) Hs) as (y & -> & _).
      unfold app.footerFor. cbn. auto.
    + rewrite E. destruct (exec_scrolls o (app.layout t) Hs) as (y & -> & _).
      unfold app.footerFor. cbn. auto.
  - rewrite E. cbn [fst]. destruct t as [l sh sp].
    unfold app.updateFooter, app.footerFor.
    destruct sh, sp; cbn; auto.
  - rewrite E. cbn [fst]. destruct t as [l sh sp].
    unfold app.updateFooter, app.footerFor.
    destruct sh, sp; cbn; auto.
Qed.

Lemma app_feed_inv (msgs : list tea.Msg) (t : app.testApp) :
  ((app.showHelp t && app.showPosInfo t)%bool = false ->
   (app.showHelp (app.feed msgs t) &&
    app.showPosInfo (app.feed msgs t))%bool = false) /\
  (footer (app.layout t) = app.footerFor t ->
   footer (app.layout (app.feed msgs t)) = app.footerFor (app.feed msgs t)).
Proof.
  revert t. induction msgs as [|msg msgs IH]; intros t; [cbn; auto|].
  change (app.feed (msg :: msgs) t)
    with (app.feed msgs (fst (app.Update msg t))).
  destruct (IH (fst (app.Update msg t))) as (IH1 & IH2).
  destruct (app_Update_inv msg t) as (H1 & H2).
  auto.
Qed.

(** Whatever messages the demo application receives after start-up,
    the help line and the position line are never both switched on. *)
Theorem help_and_position_exclusive
  (hs fs : lipgloss.Style) (content : string) (msgs : list tea.Msg) :
  let t := app.feed msgs (app.start hs fs content) in
  (app.showHelp t && app.showPosInfo t)%bool = false.
Proof.
  cbv zeta. apply app_feed_inv. reflexivity.
Qed.

(** Whatever messages the demo application receives after start-up,
    the Layout's footer is the text that belongs to the two flags: the
    position hint when the position line is on, else the key list when the
    help line is on, else the short hint. *)
Theorem footer_follows_flags
  (hs fs : lipgloss.Style) (content : string) (msgs : list tea.Msg) :
  let t := app.feed msgs (app.start hs fs content) in
  footer (app.layout t) = app.footerFor t.
Proof.
  cbv zeta. apply app_feed_inv. reflexivity.
Qed.

(** With the position line off, pressing ["h"] twice restores the
    application state; with the help line off, so does pressing ["p"]
    twice.  The footer is assumed to be the one the flags ask for. *)
Theorem toggle_round_trip (t : app.testApp) :
  footer (app.layout t) = app.footerFor t ->
  (app.showPosInfo t = false ->
   fst (app.Update (tea.KeyMsg "h") (fst (app.Update (tea.KeyMsg "h") t))) = t) /\
  (app.showHelp t = false ->
   fst (app.Update (tea.KeyMsg "p") (fst (app.Update (tea.KeyMsg "p") t))) = t).
Proof.
  destruct t as [l sh sp]. unfold app.footerFor.
  cbn [app.layout app.showHelp app.showPosInfo]. intros Hf.
  split; intros ->.
  - destruct sh; destruct l; cbn in *; subst; reflexivity.
  - destruct sp; destruct l; cbn in *; subst; reflexivity.
Qed.

(** A key message never changes more of the Layout than the scroll
    offset of its Viewport and, for the keys ["h"] and ["p"] only, the
    footer text: header, band heights, styles, window size, contents and
    alignment mode, and the Viewport's size, row and buffer stay. *)
Theorem key_only_scrolls (key : string) (t : app.testApp) :
  let l := app.layout t in
  let l' := app.layout (fst (app.Update (tea.KeyMsg key) t)) in
  (exists y f,
     l' = set_footer f (set_viewport (Viewport.setYOffsetField y (viewport l)) l)) /\
  (key <> "h" -> key <> "p" ->
   footer l' = footer l /\
   app.showHelp (fst (app.Update (tea.KeyMsg key) t)) = app.showHelp t /\
   app.showPosInfo (fst (app.Update (tea.KeyMsg key) t)) = app.showPosInfo t).
Proof.
  cbv zeta.
  assert (Hid : forall l : Layout,
    l = set_footer (footer l)
          (set_viewport
             (Viewport.setYOffsetField (Viewport.YOffset (viewport l))
                (viewport l)) l)).
  { intros l. destruct l as [? ? ? ? v ? ? ? ? ? ? ?]. now destruct v. }
  split.
  - destruct (app_key_cases key t)
      as [(_ & ->)|[(o & Hs & -> & _)|[(_ & ->)|(_ & ->)]]].
    + cbn [fst]. eauto.
    + destruct (exec_scrolls o (app.layout t) Hs) as (y & -> & _).
      exists y, (footer (app.layout t)).
      destruct t as [l sh sp]. cbn. now destruct l.
    + cbn [fst]. destruct t as [l sh sp]. unfold app.updateFooter.
      exists (Viewport.YOffset (viewport l)).
      destruct sh, sp; cbn; eexists;
        destruct l as [? ? ? ? v ? ? ? ? ? ? ?]; destruct v; reflexivity.
    + cbn [fst]. destruct t as [l sh sp]. unfold app.updateFooter.
      exists (Viewport.YOffset (viewport l)).
      destruct sh, sp; cbn; eexists;
        destruct l as [? ? ? ? v ? ? ? ? ? ? ?]; destruct v; reflexivity.
  - intros Hh Hp.
    destruct (app_Update_keeps (tea.KeyMsg key) t) as (Eh & Ep & Ef);
      [congruence | congruence | auto].
Qed.

(** The application asks the event loop to quit exactly on the keys
    ["q"] and ["ctrl+c"], and its state is then unchanged. *)
Theorem app_quits_on_q_only (msg : tea.Msg) (t : app.testApp) :
  (snd (app.Update msg t) = tea.Quit <->
   msg = tea.KeyMsg "q" \/ msg = tea.KeyMsg "ctrl+c") /\
  (snd (app.Update msg t) = tea.Quit -> fst (app.Update msg t) = t).
Proof.
  assert (Hto : forall m,
    (forall k, m = tea.KeyMsg k ->
       ((k =? "ctrl+c")%string || (k =? "q")%string)%bool = false) ->
    snd (let (model, cmd) := Update m (app.layout t) in
         (app.set_layout model t, cmd)) = tea.NoCmd).
  { intros m Hm.
    destruct (Update_cmd_cases m (app.layout t))
      as [(k & -> & Hk & _)|(Hc & _)].
    - rewrite (Hm k eq_refl) in Hk. discriminate.
    - destruct (Update m (app.layout t)) as [model cmd]. exact Hc. }
  assert (Hkey : forall k,
    ((k =? "q") || (k =? "ctrl+c"))%string%bool = true <->
    tea.KeyMsg k = tea.KeyMsg "q" \/ tea.KeyMsg k = tea.KeyMsg "ctrl+c").
  { intros k. rewrite orb_true_iff, !String.eqb_eq.
    split; intros [H|H]; (injection H as -> || subst k); auto. }
  destruct msg as [w h|key|tag].
  - cbn [app.Update]. rewrite Hto by (intros k Hk; discriminate).
    split; [|discriminate].
    split; [discriminate | intros [H|H]; discriminate].
  - destruct (app_key_cases key t)
      as [(Hq & ->)|[(o & Hs & E & Hc)|[(-> & ->)|(-> & ->)]]].
    + cbn [fst snd]. split; [|reflexivity].
      split; [intros _; now apply Hkey | reflexivity].
    + destruct Hc as (Hc & Hq). rewrite Hc.
      split; [|discriminate].
      split; [discriminate|].
      intros H. apply Hkey in H. congruence.
    + cbn [snd]. split; [|discriminate].
      split; [discriminate | intros [H|H]; discriminate].
    + cbn [snd]. split; [|discriminate].
      split; [discriminate | intros [H|H]; discriminate].
  - cbn [app.Update]. rewrite Hto by (intros k Hk; discriminate).
    split; [|discriminate].
    split; [discriminate | intros [H|H]; discriminate].
Qed.

End DemoApp.

(** ** More of the state machine and of the demo start-up *)

Section MoreStateMachine.

Context {R : lipgloss.Renderer}.

Lemma set_verticalAlign_same (l : Layout) :
  set_verticalAlign (verticalAlign l) l = l.
Proof. now destruct l. Qed.

(** Setting the alignment mode twice is setting it once, and of two
    modes set in a row the last one decides the mode and the buffer. *)
Theorem SetVerticalAlignment_last_wins (a b : VerticalAlignment) (l : Layout) :
  SetVerticalAlignment a (SetVerticalAlignment a l) = SetVerticalAlignment a l /\
  verticalAlign (SetVerticalAlignment b (SetVerticalAlignment a l)) = b /\
  Viewport.lines (viewport (SetVerticalAlignment b (SetVerticalAlignment a l))) =
    Viewport.lines (viewport (SetVerticalAlignment b l)).
Proof.
  unfold SetVerticalAlignment. lay.
  destruct (negb (viewportContent l =? "")%string
            && (0 <? Viewport.Width (viewport l)))%bool eqn:G.
  - assert (Hw : Viewport.Width (viewport l) <> 0).
    { apply andb_true_iff in G as [_ G]. apply Z.ltb_lt in G. lia. }
    destruct (applyAlignment_keeps (set_verticalAlign a l))
      as (_ & Hraw & Hmode & _).
    destruct (applyAlignment_size (set_verticalAlign a l)) as (HW & HH & _).
    rewrite Hraw, HW. lay. rewrite G.
    split; [|split].
    + rewrite <- Hmode at 1. rewrite set_verticalAlign_same.
      apply applyAlignment_twice.
    + now destruct (applyAlignment_keeps
                      (set_verticalAlign b
                         (applyAlignment (set_verticalAlign a l))))
        as (_ & _ & -> & _).
    + rewrite !applyAlignment_buffer. lay. rewrite HW, HH, Hraw. lay.
      apply Z.eqb_neq in Hw. rewrite Hw. reflexivity.
  - lay. rewrite G. repeat split.
Qed.

(** The Viewport's width is the stored window width. *)
Lemma exec_widths (o : Op) (l : Layout) :
  Viewport.Width (viewport l) = windowWidth l ->
  Viewport.Width (viewport (exec o l)) = windowWidth (exec o l).
Proof.
  intros Hinv. rewrite exec_width.
  destruct (scrolls o) eqn:Hs.
  { destruct (exec_scrolls o l Hs) as (y & -> & _).
    destruct o as [| | | | | | | |[w h|k|t]| | | | | | | | |];
      try discriminate; exact Hinv. }
  destruct o as [| | | | | |c|a|[w h|k|t]|y| | | | | | | |];
    try discriminate; cbn [exec]; try exact Hinv.
  - unfold SetContent. lay.
    destruct (_ =? 0); [exact Hinv|].
    now destruct (applyAlignment_bands (set_viewportContent c l))
      as (_ & _ & _ & _ & ->).
  - unfold SetVerticalAlignment. lay.
    destruct (_ && _)%bool; [|exact Hinv].
    now destruct (applyAlignment_bands (set_verticalAlign a l))
      as (_ & _ & _ & _ & ->).
  - now destruct (Update_resize_size w h l) as (_ & _ & -> & _).
Qed.

(** In every state reached from [New], [GetViewportWidth] is the
    stored window width: both are written by resize events only, and by
    each of them. *)
Theorem GetViewportWidth_is_window_width (ops : list Op) :
  GetViewportWidth (run ops New) = windowWidth (run ops New) /\
  forall (o : Op) (l : Layout),
    GetViewportWidth (exec o l) =
    match o with
    | OpUpdate (tea.WindowSizeMsg w _) => w
    | _ => GetViewportWidth l
    end.
Proof.
  unfold GetViewportWidth. split; [|intros o l; apply exec_width].
  assert (H0 : Viewport.Width (viewport New) = windowWidth New)
    by reflexivity.
  revert H0. generalize New.
  induction ops as [|o ops IH]; intros l Hinv; [exact Hinv|].
  change (run (o :: ops) l) with (run ops (exec o l)).
  apply IH. now apply exec_widths.
Qed.

(** The boundary queries agree with the jumps: after [ScrollToTop]
    the Layout reports the top, after [ScrollToBottom] the bottom, in every
    state.  A Layout that has seen no resize event has an empty buffer and
    offset 0 and reports both the top and the bottom, whatever else was
    called on it. *)
Theorem boundary_queries (l : Layout) :
  ViewportAtTop (ScrollToTop l) = true /\
  ViewportAtBottom (ScrollToBottom l) = true /\
  forall ops : list Op,
    forallb (fun o => negb (isResize o)) ops = true ->
    Viewport.lines (viewport (run ops New)) = [] /\
    Viewport.YOffset (viewport (run ops New)) = 0 /\
    ViewportAtTop (run ops New) = true /\
    ViewportAtBottom (run ops New) = true.
Proof.
  split; [|split].
  - destruct l as [hd ft hh fh [w h y p ls] ww wh hs fs pc va vc].
    unfold ViewportAtTop, ScrollToTop. lay. vp_solve.
  - destruct l as [hd ft hh fh [w h y p ls] ww wh hs fs pc va vc].
    unfold ViewportAtBottom, ScrollToBottom. lay. vp_solve.
  - intros ops Hno.
    assert (Hgen : forall l0 : Layout,
              Viewport.Width (viewport l0) = 0 ->
              Viewport.lines (viewport l0) = [] ->
              Viewport.Height (viewport l0) = 0 ->
              Viewport.YOffset (viewport l0) = 0 ->
              Viewport.lines (viewport (run ops l0)) = [] /\
              Viewport.Height (viewport (run ops l0)) = 0 /\
              Viewport.YOffset (viewport (run ops l0)) = 0).
    { induction ops as [|o ops IH]; intros l0 Hw Hl Hh Hy; [auto|].
      cbn [forallb] in Hno. apply andb_true_iff in Hno as [Ho Hno].
      change (run (o :: ops) l0) with (run ops (exec o l0)).
      assert (Hstep : Viewport.Width (viewport (exec o l0)) = 0 /\
                      Viewport.lines (viewport (exec o l0)) = [] /\
                      Viewport.Height (viewport (exec o l0)) = 0 /\
                      Viewport.YOffset (viewport (exec o l0)) = 0).
      { destruct (scrolls o) eqn:Hs.
        { destruct (exec_scrolls o l0 Hs) as (y & -> & Hr). lay.
          cbn [Viewport.setYOffsetField Viewport.Width Viewport.lines
               Viewport.Height Viewport.YOffset].
          repeat split; try assumption.
          destruct Hr as [<-|Hr]; [exact Hy|].
          unfold Viewport.maxYOffset, Viewport.len in Hr.
          rewrite Hl, Hh in Hr. cbn in Hr. lia. }
        destruct o as [| | | | | |c|a|[w h|k|t]|y| | | | | | | |];
          try discriminate; cbn [exec]; auto.
        - rewrite (SetContent_unsized c l0 Hw). auto.
        - rewrite (SetVerticalAlignment_unsized a l0 Hw). auto. }
      destruct Hstep as (Hw' & Hl' & Hh' & Hy').
      exact (IH Hno _ Hw' Hl' Hh' Hy'). }
    destruct (Hgen New eq_refl eq_refl eq_refl eq_refl) as (Hl & Hh & Hy).
    split; [exact Hl|]. split; [exact Hy|].
    revert Hl Hh Hy. generalize (run ops New). intros l0.
    destruct l0 as [hd ft hh fh [w h y p ls] ww wh hs fs pc va vc].
    unfold ViewportAtTop, ViewportAtBottom. lay. intros -> -> ->.
    split; reflexivity.
Qed.

(** The state [main] hands to the event loop. *)
Lemma start_state (hs fs : lipgloss.Style) (content : string) :
  app.start hs fs content =
  app.mkTestApp
    (mkLayout "TUI Layout Scaffold Demo v1.0.0"
       "Press 'h' for help | 'p' for position info | 'q' to quit"
       3 1 Viewport.zero 0 0 hs fs content AlignTop content)
    false false.
Proof. reflexivity. Qed.

(** The first resize event after the start-up steps of [main]. *)
Lemma start_first_frame
  (hs fs : lipgloss.Style) (content : string) (w h : Z) :
  content <> "" -> w <> 0 ->
  app.View (app.start hs fs content) = "Initializing..." /\
  viewport
    (app.layout
       (fst (app.Update (tea.WindowSizeMsg w h) (app.start hs fs content)))) =
    Viewport.SetContent content (Viewport.New w (Go.sub (Go.sub h 3) 1)) /\
  header
    (app.layout
       (fst (app.Update (tea.WindowSizeMsg w h) (app.start hs fs content)))) =
    "TUI Layout Scaffold Demo v1.0.0" /\
  footer
    (app.layout
       (fst (app.Update (tea.WindowSizeMsg w h) (app.start hs fs content)))) =
    "Press 'h' for help | 'p' for position info | 'q' to quit".
Proof.
  intros Hc Hw. rewrite start_state.
  split; [reflexivity|].
  unfold app.Update. cbn [app.layout].
  rewrite Update_first_resize by reflexivity.
  cbn [fst app.layout app.set_layout app.showHelp app.showPosInfo].
  lay. apply String.eqb_neq in Hc. rewrite Hc.
  rewrite applyAlignment_aligned by (lay; exact Hw). lay.
  replace (Spec.aligned AlignTop (Go.sub (Go.sub h 3) 1) content)
    with content
    by (unfold Spec.aligned; now destruct (_ <? _)).
  repeat split.
Qed.

End MoreStateMachine.

(** ** The generated content and the first frame of the demo *)

Lemma Count_nonneg (s : string) : 0 <= Go.Count s.
Proof.
  induction s as [|c s IH]; cbn [Go.Count]; [lia|].
  destruct (Ascii.eqb c Go.LF); lia.
Qed.

(** A loop that appends to a builder writes at least the line breaks its
    iterations write. *)
Lemma Count_fold_left (f : string -> Z -> string) (g : Z -> Z) (xs : list Z) :
  (forall acc x, Go.Count acc + g x <= Go.Count (f acc x)) ->
  forall acc,
    Go.Count acc + fold_right Z.add 0 (map g xs) <= Go.Count (fold_left f xs acc).
Proof.
  intros Hstep. induction xs as [|x xs IH]; intros acc; cbn; [lia|].
  specialize (IH (f acc x)). specialize (Hstep acc x). lia.
Qed.

(** Line-break counts of rendered parts and of formatted numbers are not
    negative; those of string literals are computed. *)
Ltac count_bound :=
  repeat match goal with
    | |- context [Go.Count (lipgloss.Render ?st ?x)] =>
        generalize (Count_nonneg (lipgloss.Render st x));
        generalize (Go.Count (lipgloss.Render st x)); intros ? ?
    | |- context [Go.Count (GoFmt.d ?x)] =>
        generalize (Count_nonneg (GoFmt.d x));
        generalize (Go.Count (GoFmt.d x)); intros ? ?
    | |- context [Go.Count ?v] =>
        is_var v; generalize (Go.Count v); intros ?
    end;
  repeat match goal with
    | |- context [Go.Count ?s] =>
        let v := eval vm_compute in (Go.Count s) in
        change (Go.Count s) with v
    end;
  intros; lia.

Section GeneratedContent.

Context {R : lipgloss.Renderer}.

Variable Padding : list Z -> lipgloss.Style -> lipgloss.Style.

Lemma generateTestContent_last :
  exists s, app.generateTestContent Padding = s ++ String Go.LF "".
Proof. unfold app.generateTestContent. cbv zeta. eexists. reflexivity. Qed.

Lemma generateTestContent_not_empty : app.generateTestContent Padding <> "".
Proof.
  destruct generateTestContent_last as (s & ->).
  destruct s; discriminate.
Qed.

(** Whatever the renderer returns for the styled parts, the generated
    content ends in a line break, is not empty, and has at least the 245
    line breaks the function writes itself: 246 lines. *)
Theorem generateTestContent_lines :
  (exists s, app.generateTestContent Padding = s ++ String Go.LF "") /\
  app.generateTestContent Padding <> "" /\
  246 <= Spec.lineCount (app.generateTestContent Padding).
Proof.
  split; [exact generateTestContent_last|].
  split; [exact generateTestContent_not_empty|].
  rewrite <- Count_lineCount.
  unfold app.generateTestContent. cbv zeta.
  repeat rewrite Count_append.
  match goal with
  | |- context [Go.Count (fold_left ?f ?xs ?acc)] =>
      pose proof (Count_fold_left f (fun _ => 24) xs) as Hsec;
      cbv beta in Hsec;
      match type of Hsec with
      | ?P -> _ => assert (Hstep : P); [|specialize (Hsec Hstep acc)]
      end
  end.
  { intros acc section.
    repeat rewrite Count_append.
    match goal with
    | |- context [Go.Count (fold_left ?f ?xs ?a)] =>
        pose proof (Count_fold_left f
          (fun line => (if Z.rem line 5 =? 0 then 1 else 0)
                       + (if Z.rem line 2 =? 0 then 0 else 1)) xs) as Hline;
        cbv beta in Hline;
        match type of Hline with
        | ?P -> _ => assert (Hl : P); [|specialize (Hline Hl a)]
        end
    end.
    { intros acc' line.
      destruct (Z.rem line 5 =? 0); destruct (Z.rem line 2 =? 0);
        repeat rewrite Count_append; count_bound. }
    match type of Hline with
    | context [fold_right Z.add 0 ?l] =>
        let v := eval vm_compute in (fold_right Z.add 0 l) in
        change (fold_right Z.add 0 l) with v in Hline
    end.
    repeat rewrite Count_append in Hline.
    revert Hline.
    match goal with
    | |- context [Go.Count (fold_left ?f ?xs ?a)] =>
        generalize (Go.Count (fold_left f xs a))
    end.
    intros n Hn. revert Hn. count_bound. }
  match type of Hsec with
  | context [fold_right Z.add 0 ?l] =>
      let v := eval vm_compute in (fold_right Z.add 0 l) in
      change (fold_right Z.add 0 l) with v in Hsec
  end.
  repeat rewrite Count_append in Hsec.
  revert Hsec.
  match goal with
  | |- context [Go.Count (fold_left ?f ?xs ?a)] =>
      generalize (Go.Count (fold_left f xs a))
  end.
  intros n Hn. revert Hn. count_bound.
Qed.

(** The demo application starts with the placeholder on screen, and the
    first resize event of a width other than 0 puts the generated content
    into a Viewport four rows shorter than the terminal (header band 3,
    footer band 1), under the versioned title and the short footer hint. *)
Theorem demo_first_frame (w h : Z) :
  w <> 0 ->
  let t0 := app.mainStart Padding in
  let t1 := fst (app.Update (tea.WindowSizeMsg w h) t0) in
  app.View t0 = "Initializing..." /\
  viewport (app.layout t1) =
    Viewport.SetContent (app.generateTestContent Padding)
      (Viewport.New w (Go.sub (Go.sub h 3) 1)) /\
  header (app.layout t1) = "TUI Layout Scaffold Demo v1.0.0" /\
  footer (app.layout t1) =
    "Press 'h' for help | 'p' for position info | 'q' to quit".
Proof.
  intros Hw. cbv zeta. unfold app.mainStart. cbv zeta.
  apply start_first_frame; [exact generateTestContent_not_empty | exact Hw].
Qed.

End GeneratedContent.

(** ** More concrete runs, on the plain renderer *)

(** Four lines in a viewport of height 10: from Bottom mode the buffer has
    10 lines, from Center mode 7, and nothing can be scrolled. *)
Lemma applyAlignment_line_count_scenario :
  Viewport.len (viewport (applyAlignment (Plain.fourIn10 AlignBottom))) = 10 /\
  Viewport.len (viewport (applyAlignment (Plain.fourIn10 AlignCenter))) =
    Spec.lineCount Plain.fourLines + (10 - Spec.lineCount Plain.fourLines) / 2 /\
  Viewport.maxYOffset (viewport (applyAlignment (Plain.fourIn10 AlignBottom)))
    = Z.max 0 (Spec.lineCount Plain.fourLines - 10).
Proof.
  destruct (applyAlignment_line_count (Plain.fourIn10 AlignBottom))
    as (Hb & _ & Hm); [vm_compute; discriminate|].
  destruct Hb as (_ & _ & Hb); [vm_compute; reflexivity|].
  destruct (applyAlignment_line_count (Plain.fourIn10 AlignCenter))
    as (Hc & _ & _); [vm_compute; discriminate|].
  destruct Hc as (_ & Hc & _); [vm_compute; reflexivity|].
  split; [exact (Hb eq_refl)|]. split; [exact (Hc eq_refl) | exact Hm].
Defined.

(** An empty content in Bottom mode, skipped by the first resize, is padded
    by the second. *)
Lemma later_resize_realigns_scenario :
  Spec.Aligned (fst (Update (tea.WindowSizeMsg 80 24) Plain.emptyBottom)) /\
  Viewport.Height
    (viewport (fst (Update (tea.WindowSizeMsg 80 24) Plain.emptyBottom))) =
    Go.sub (Go.sub 24 (headerHeight Plain.emptyBottom))
      (footerHeight Plain.emptyBottom).
Proof.
  destruct (later_resize_realigns 80 24 Plain.emptyBottom)
    as (Ha & _ & _ & Hh);
    [vm_compute; discriminate | discriminate |].
  split; [exact Ha | exact Hh].
Defined.

(** The five lines, pending, and two resize events to 80x4. *)
Lemma resize_twice_scenario :
  viewport
    (fst (Update (tea.WindowSizeMsg 80 4)
            (fst (Update (tea.WindowSizeMsg 80 4)
                    (SetContent Plain.fiveLines Plain.New))))) =
  viewport
    (fst (Update (tea.WindowSizeMsg 80 4)
            (SetContent Plain.fiveLines Plain.New))).
Proof.
  destruct (resize_twice 80 4 (SetContent Plain.fiveLines Plain.New))
    as (Hv & _);
    [right; vm_compute; discriminate | discriminate |].
  exact Hv.
Defined.

(** The five lines in a viewport of height 2, a resize event of width 0 and
    one to 80x4: the Viewport is empty, the raw content is still there. *)
Lemma zero_width_resize_scenario :
  Viewport.lines
    (viewport
       (fst (Update (tea.WindowSizeMsg 80 4)
               (fst (Update (tea.WindowSizeMsg 0 4) Plain.fiveIn2))))) = [] /\
  viewportContent
    (fst (Update (tea.WindowSizeMsg 80 4)
            (fst (Update (tea.WindowSizeMsg 0 4) Plain.fiveIn2)))) =
    viewportContent Plain.fiveIn2.
Proof.
  destruct (zero_width_resize_drops_buffer 4 80 4 Plain.fiveIn2)
    as (_ & _ & _ & Hl & Hc);
    [vm_compute; discriminate | reflexivity |].
  split; [exact Hl | exact Hc].
Defined.

(** A content set, then the first resize: nothing is pending any more. *)
Lemma pending_content_invariant_scenario :
  pendingContent
    (Plain.run [OpSetContent "a"; OpUpdate (tea.WindowSizeMsg 80 24)]) = "".
Proof.
  assert (Hok : Forall (@resizeOk Plain.renderer)
                  [OpSetContent "a"; OpUpdate (tea.WindowSizeMsg 80 24)]).
  { repeat constructor. cbn. discriminate. }
  destruct (pending_content_invariant _ Hok) as (_ & _ & Hp).
  apply Hp. vm_compute. discriminate.
Defined.

(** The demo application right after start-up: ["h"] twice and ["p"] twice
    both lead back to it. *)
Lemma toggle_round_trip_scenario :
  fst (app.Update (tea.KeyMsg "h")
         (fst (app.Update (tea.KeyMsg "h") PlainApp.start))) = PlainApp.start /\
  fst (app.Update (tea.KeyMsg "p")
         (fst (app.Update (tea.KeyMsg "p") PlainApp.start))) = PlainApp.start.
Proof.
  destruct (toggle_round_trip PlainApp.start) as (Hh & Hp); [reflexivity|].
  split; [apply Hh | apply Hp]; reflexivity.
Defined.

(** The demo application in a 80x24 terminal: a Viewport of height 20. *)
Lemma demo_first_frame_scenario :
  viewport
    (app.layout
       (fst (app.Update (tea.WindowSizeMsg 80 24) PlainApp.mainStart))) =
    Viewport.SetContent
      (@app.generateTestContent Plain.renderer (fun _ st => st))
      (Viewport.New 80 20).
Proof.
  destruct (@demo_first_frame Plain.renderer (fun _ st => st) 80 24)
    as (_ & Hv & _); [discriminate|].
  exact Hv.
Defined.
